(** * RealEstateChatboat2: the routing, fallback and bookkeeping logic

    A shallow embedding of the decision logic of [agent_router.py],
    [tenancy_faq_agent.py] and [issue_detection_agent.py], with the Python
    primitives those files rely on ([str.lower], [str.strip], the [in]
    operator on strings, exceptions, [print], name lookup). *)

From Stdlib Require Import String Ascii List Bool Arith QArith Lia.
From stdpp Require Import base option list strings gmap pretty.
Import ListNotations.
Local Open Scope string_scope.
Local Open Scope list_scope.

(** ** Python primitives *)

Module Py.

(** *** Strings

    A Python [str] is a sequence of code points.  The embedding covers the
    code points below 256, one [ascii] each; on that range [str.lower] and
    [str.isspace] are the character-wise maps written out below. *)

Definition code (c : ascii) : nat := nat_of_ascii c.

(** [c.isupper()] for a code point below 256: A-Z, and the Latin-1 capitals
    U+00C0..U+00DE without the multiplication sign U+00D7. *)
Definition is_upper (c : ascii) : bool :=
  ((65 <=? code c)%nat && (code c <=? 90)%nat)
  || ((192 <=? code c)%nat && (code c <=? 214)%nat)
  || ((216 <=? code c)%nat && (code c <=? 222)%nat).

Definition lower_char (c : ascii) : ascii :=
  if is_upper c then ascii_of_nat (code c + 32) else c.

(** [c.isspace()] for a code point below 256: TAB..CR, FS..US, SPACE, NEL
    and NBSP. *)
Definition isspace (c : ascii) : bool :=
  ((9 <=? code c)%nat && (code c <=? 13)%nat)
  || ((28 <=? code c)%nat && (code c <=? 32)%nat)
  || (code c =? 133)%nat || (code c =? 160)%nat.

(** [s.lower()] *)
Fixpoint lower (s : string) : string :=
  match s with
  | EmptyString => EmptyString
  | String c s' => String (lower_char c) (lower s')
  end.

(** [s.lstrip()], [s.rstrip()] and [s.strip()] with no argument. *)
Fixpoint lstrip (s : string) : string :=
  match s with
  | EmptyString => EmptyString
  | String c s' => if isspace c then lstrip s' else s
  end.

Definition is_empty (s : string) : bool :=
  match s with EmptyString => true | String _ _ => false end.

Fixpoint rstrip (s : string) : string :=
  match s with
  | EmptyString => EmptyString
  | String c s' =>
      let rest := rstrip s' in
      if isspace c && is_empty rest then EmptyString else String c rest
  end.

Definition strip (s : string) : string := rstrip (lstrip s).

(** [s.startswith(k)] *)
Fixpoint startswith (k s : string) : bool :=
  match k, s with
  | EmptyString, _ => true
  | String _ _, EmptyString => false
  | String a k', String c s' => Ascii.eqb a c && startswith k' s'
  end.

(** [k in s] for two strings: [k] occurs in [s] as a contiguous run. *)
Fixpoint contains (k s : string) : bool :=
  startswith k s
  || match s with
     | EmptyString => false
     | String _ s' => contains k s'
     end.

(** The mathematical reading of [k in s]. *)
Definition substring_of (k s : string) : Prop :=
  exists pre post : string, s = pre +:+ k +:+ post.

(** No whitespace anywhere in the string. *)
Fixpoint no_space (k : string) : bool :=
  match k with
  | EmptyString => true
  | String a k' => negb (isspace a) && no_space k'
  end.

(** Truthiness of a string: [bool(s)]. *)
Definition str_truthy (s : string) : bool := negb (is_empty s).

(** The line break, for the places where a literal of the source holds one. *)
Definition nl : string := String (ascii_of_nat 10) EmptyString.

(** *** Values, dictionaries and truthiness

    The dictionaries of the conversation log and of the routing context hold
    strings and [None]; a dictionary only read through [get] is a [gmap]. *)

Inductive pyval : Type :=
| PyNone
| PyStr (s : string).

#[global] Instance pyval_eq_dec : EqDecision pyval.
Proof. solve_decision. Defined.

Definition val_truthy (v : pyval) : bool :=
  match v with
  | PyNone => false
  | PyStr s => str_truthy s
  end.

(** [d.get(k)]: [None] when the key is absent. *)
Definition dict_get (d : gmap string pyval) (k : string) : pyval :=
  default PyNone (d !! k).

(** [bool(d)] for a dictionary: it has an entry. *)
Definition dict_truthy (d : gmap string pyval) : bool :=
  negb (bool_decide (d = ∅)).

(** [bool(x)] for an argument typed [Dict] with default [None]. *)
Definition opt_dict_truthy (d : option (gmap string pyval)) : bool :=
  match d with
  | None => false
  | Some d => dict_truthy d
  end.

(** [bool(x)] for an argument typed [Optional[str]]. *)
Definition opt_str_truthy (s : option string) : bool :=
  match s with
  | None => false
  | Some s => str_truthy s
  end.

(** *** Exceptions and effects

    Every exception below is a subclass of [Exception], so a handler
    [except Exception] catches each of them.  [ModelError] stands for
    whatever the model call of [utils] raises. *)

Inductive exn : Type :=
| AttributeError (msg : string)
| NameError (msg : string)
| KeyError (key : string)
| ValueError (msg : string)
| ModelError (msg : string).

(** [str(e)] *)
Definition exn_str (e : exn) : string :=
  match e with
  | AttributeError msg | NameError msg | ValueError msg | ModelError msg => msg
  | KeyError key => "'" +:+ key +:+ "'"
  end.

Inductive result (A : Type) : Type :=
| Return (a : A)
| Raise (e : exn).
Arguments Return {A} a.
Arguments Raise {A} e.

(** What a call leaves behind: the lines it printed and the prompts it sent
    to the external model, oldest first. *)
Record world : Type := World {
  stdout : list string;
  model_calls : list string
}.

Definition fresh : world := World [] [].

Definition M (A : Type) : Type := world -> result A * world.

Definition ret {A} (a : A) : M A := fun w => (Return a, w).

Definition raise {A} (e : exn) : M A := fun w => (Raise e, w).

Definition bind {A B} (m : M A) (k : A -> M B) : M B :=
  fun w =>
    match m w with
    | (Return a, w') => k a w'
    | (Raise e, w') => (Raise e, w')
    end.

#[global] Instance M_ret : MRet M := @ret.
#[global] Instance M_bind : MBind M := fun A B k m => bind m k.

(** [try: body except Exception as e: handler(e)] *)
Definition try_except {A} (body : M A) (handler : exn -> M A) : M A :=
  fun w =>
    match body w with
    | (Return a, w') => (Return a, w')
    | (Raise e, w') => handler e w'
    end.

(** [print(line)] *)
Definition print (line : string) : M unit :=
  fun w => (Return tt, World (stdout w ++ [line]) (model_calls w)).

(** A call of the external model: the prompt is recorded, the outcome is the
    collaborator's. *)
Definition call_model (model : string -> result string) (prompt : string)
  : M string :=
  fun w => (model prompt, World (stdout w) (model_calls w ++ [prompt])).

(** *** Name resolution

    A module is given by the names its top level binds, a class by the
    methods its body defines; [self] is given by its class. *)

Record pyclass : Type := PyClass {
  class_name : string;
  class_methods : list string
}.

(** Reading a global name inside a function body. *)
Definition lookup_global (globals : list string) (name : string) : M unit :=
  if decide (name ∈ globals) then ret tt
  else raise (NameError ("name '" +:+ name +:+ "' is not defined")).

(** Reading [self.name] where [name] is expected to be a method. *)
Definition lookup_method (self : pyclass) (name : string) : M unit :=
  if decide (name ∈ class_methods self) then ret tt
  else raise (AttributeError ("'" +:+ class_name self
                              +:+ "' object has no attribute '" +:+ name +:+ "'")).

(** A library call that touches neither the output nor the model: its
    outcome, value or exception, is the call's. *)
Definition of_result {A} (r : result A) : M A := fun w => (r, w).

(** [l[:n]] for a list. *)
Definition slice_to {A} (n : nat) (l : list A) : list A := firstn n l.

(** [random.choice(l)]: the entry at the index the generator draws. *)
Definition random_choice (draw : nat) (l : list string) : string :=
  nth (draw mod length l) l EmptyString.

(** *** Insertion-ordered dictionaries

    [agent_usage] is iterated, so its order of insertion matters: it is kept
    as the list of its items, keys distinct, oldest first. *)

(** [d.get(k, dflt)] *)
Fixpoint odict_get (d : list (string * nat)) (k : string) (dflt : nat) : nat :=
  match d with
  | [] => dflt
  | (k', v) :: d' => if String.eqb k' k then v else odict_get d' k dflt
  end.

(** [d[k] = v]: an existing key keeps its place, a new key goes last. *)
Fixpoint odict_set (d : list (string * nat)) (k : string) (v : nat)
  : list (string * nat) :=
  match d with
  | [] => [(k, v)]
  | (k', v') :: d' =>
      if String.eqb k' k then (k', v) :: d' else (k', v') :: odict_set d' k v
  end.

(** [d[k]] *)
Fixpoint odict_getitem (d : list (string * nat)) (k : string) : M nat :=
  match d with
  | [] => raise (KeyError k)
  | (k', v) :: d' => if String.eqb k' k then ret v else odict_getitem d' k
  end.

(** [max(d, key=d.get)]: the keys are visited in order and the running best
    is replaced only by a strictly larger value. *)
Fixpoint max_from (best : string * nat) (rest : list (string * nat)) : string :=
  match rest with
  | [] => fst best
  | (k, v) :: rest' =>
      if (snd best <? v)%nat then max_from (k, v) rest' else max_from best rest'
  end.

Definition py_max_key (d : list (string * nat)) : M string :=
  match d with
  | [] => raise (ValueError "max() arg is an empty sequence")
  | item :: rest => ret (max_from item rest)
  end.

(** [sum(l)] *)
Definition py_sum (l : list nat) : nat := fold_left Nat.add l 0.

(** *** Facts about the string primitives *)

Lemma startswith_spec (k s : string) :
  startswith k s = true <-> exists post : string, s = k +:+ post.
Proof.
  revert s; induction k as [|a k IH]; intros s; simpl.
  - split; [intros _; exists s; reflexivity | reflexivity].
  - destruct s as [|c s]; simpl.
    + split; [discriminate | intros [post H]; discriminate].
    + rewrite andb_true_iff, Ascii.eqb_eq, IH. split.
      * intros [-> [post ->]]. exists post. reflexivity.
      * intros [post H]. injection H as -> ->. split; [reflexivity | eauto].
Qed.

Lemma contains_spec (k s : string) :
  contains k s = true <-> substring_of k s.
Proof.
  unfold substring_of. induction s as [|c s IH].
  - simpl. rewrite orb_false_r, startswith_spec. split.
    + intros [post H]. exists EmptyString, post. exact H.
    + intros [pre [post H]]. destruct pre; simpl in H; [eauto | discriminate].
  - cbn [contains]. rewrite orb_true_iff, IH, startswith_spec. split.
    + intros [[post H] | [pre [post H]]].
      * exists EmptyString, post. exact H.
      * exists (String c pre), post. simpl. rewrite H. reflexivity.
    + intros [pre [post H]]. destruct pre as [|c' pre]; simpl in H.
      * left. eauto.
      * injection H as -> H. right. eauto.
Qed.

Lemma isspace_lower_char (c : ascii) : isspace (lower_char c) = isspace c.
Proof. destruct c as [[] [] [] [] [] [] [] []]; reflexivity. Qed.

Lemma is_empty_lower (s : string) : is_empty (lower s) = is_empty s.
Proof. destruct s; reflexivity. Qed.

Lemma lower_lstrip (s : string) : lower (lstrip s) = lstrip (lower s).
Proof.
  induction s as [|c s IH]; simpl; [reflexivity|].
  rewrite isspace_lower_char. destruct (isspace c); [exact IH | reflexivity].
Qed.

Lemma lower_rstrip (s : string) : lower (rstrip s) = rstrip (lower s).
Proof.
  induction s as [|c s IH]; simpl; [reflexivity|].
  rewrite isspace_lower_char, <- IH, is_empty_lower.
  destruct (isspace c && is_empty (rstrip s)); simpl; [reflexivity|].
  rewrite IH. reflexivity.
Qed.

Lemma lower_strip (s : string) : lower (strip s) = strip (lower s).
Proof. unfold strip. rewrite lower_rstrip, lower_lstrip. reflexivity. Qed.

(** A keyword that starts with a visible character cannot start at a
    whitespace character. *)
Lemma startswith_space (a c : ascii) (k s : string) :
  isspace a = false -> isspace c = true ->
  startswith (String a k) (String c s) = false.
Proof.
  intros Ha Hc. simpl. destruct (Ascii.eqb a c) eqn:E; [|reflexivity].
  apply Ascii.eqb_eq in E. congruence.
Qed.

Lemma contains_lstrip (a : ascii) (k s : string) :
  isspace a = false ->
  contains (String a k) (lstrip s) = contains (String a k) s.
Proof.
  intros Ha. induction s as [|c s IH]; [reflexivity|].
  cbn [lstrip]. destruct (isspace c) eqn:Hc; [|reflexivity].
  rewrite IH. cbn [contains]. rewrite (startswith_space _ _ _ _ Ha Hc).
  reflexivity.
Qed.

Lemma startswith_rstrip (k s : string) :
  no_space k = true -> startswith k (rstrip s) = startswith k s.
Proof.
  revert k; induction s as [|c s IH]; intros k Hk; [reflexivity|].
  destruct k as [|a k]; [reflexivity|].
  simpl in Hk. apply andb_true_iff in Hk as [Ha Hk].
  apply negb_true_iff in Ha. cbn [rstrip].
  destruct (isspace c && is_empty (rstrip s)) eqn:E.
  - apply andb_true_iff in E as [Hc _].
    rewrite (startswith_space _ _ _ _ Ha Hc). reflexivity.
  - simpl. rewrite (IH k Hk). reflexivity.
Qed.

Lemma contains_empty (a : ascii) (k : string) :
  contains (String a k) EmptyString = false.
Proof. reflexivity. Qed.

Lemma contains_rstrip (a : ascii) (k s : string) :
  no_space (String a k) = true ->
  contains (String a k) (rstrip s) = contains (String a k) s.
Proof.
  intros Hk. assert (Ha : isspace a = false).
  { simpl in Hk. apply andb_true_iff in Hk as [Ha _].
    apply negb_true_iff in Ha. exact Ha. }
  induction s as [|c s IH]; [reflexivity|].
  cbn [rstrip]. destruct (isspace c && is_empty (rstrip s)) eqn:E.
  - apply andb_true_iff in E as [Hc He].
    cbn [contains]. rewrite <- IH, (startswith_space _ _ _ _ Ha Hc).
    destruct (rstrip s); [reflexivity | discriminate].
  - pose proof (startswith_rstrip (String a k) (String c s) Hk) as H.
    cbn [rstrip] in H. rewrite E in H.
    cbn [contains]. rewrite IH, H. reflexivity.
Qed.

(** Stripping the ends does not change whether a keyword made of visible
    characters occurs. *)
Lemma contains_strip (a : ascii) (k s : string) :
  no_space (String a k) = true ->
  contains (String a k) (strip s) = contains (String a k) s.
Proof.
  intros Hk. unfold strip. rewrite (contains_rstrip _ _ _ Hk).
  apply contains_lstrip. simpl in Hk.
  apply andb_true_iff in Hk as [Ha _]. apply negb_true_iff in Ha. exact Ha.
Qed.

Lemma contains_lower_strip (a : ascii) (k s : string) :
  no_space (String a k) = true ->
  contains (String a k) (lower (strip s)) = contains (String a k) (lower s).
Proof. intros Hk. rewrite lower_strip. apply contains_strip, Hk. Qed.

(** *** Facts about insertion-ordered dictionaries *)

Lemma odict_get_set (d : list (string * nat)) (k k' : string) (v dflt : nat) :
  odict_get (odict_set d k v) k' dflt
  = if String.eqb k k' then v else odict_get d k' dflt.
Proof.
  induction d as [|[k0 v0] d IH]; simpl.
  - destruct (String.eqb k k'); reflexivity.
  - destruct (String.eqb k0 k) eqn:E0; simpl.
    + apply String.eqb_eq in E0. subst k0.
      destruct (String.eqb k k'); reflexivity.
    + destruct (String.eqb k0 k') eqn:E1; [|exact IH].
      apply String.eqb_eq in E1. subst k0. rewrite String.eqb_sym, E0.
      reflexivity.
Qed.

(** Assignment keeps the keys in place and adds at most one, at the end. *)
Lemma odict_set_keys (d : list (string * nat)) (k : string) (v : nat) :
  map fst (odict_set d k v)
  = if decide (k ∈ map fst d) then map fst d else (map fst d ++ [k])%list.
Proof.
  induction d as [|[k0 v0] d IH]; cbn [odict_set map fst].
  - rewrite decide_False by apply not_elem_of_nil. reflexivity.
  - destruct (String.eqb k0 k) eqn:E0; cbn [map fst].
    + apply String.eqb_eq in E0. subst k0.
      rewrite decide_True by apply list_elem_of_here. reflexivity.
    + apply String.eqb_neq in E0. rewrite IH.
      destruct (decide (k ∈ map fst d)) as [Hin|Hout].
      * rewrite decide_True by (apply list_elem_of_further, Hin). reflexivity.
      * rewrite decide_False; [reflexivity|].
        intros H. apply elem_of_cons in H as [->|H]; [apply E0; reflexivity|].
        apply Hout, H.
Qed.

Lemma odict_set_NoDup (d : list (string * nat)) (k : string) (v : nat) :
  NoDup (map fst d) -> NoDup (map fst (odict_set d k v)).
Proof.
  intros Hnd. rewrite odict_set_keys.
  destruct (decide (k ∈ map fst d)) as [Hin|Hout]; [exact Hnd|].
  apply NoDup_app. split; [exact Hnd|]. split.
  - intros x Hx Hk. apply list_elem_of_singleton in Hk. subst x. apply Hout, Hx.
  - apply NoDup_singleton.
Qed.

Lemma odict_get_item (d : list (string * nat)) (k : string) (v dflt : nat) :
  NoDup (map fst d) -> (k, v) ∈ d -> odict_get d k dflt = v.
Proof.
  induction d as [|[k0 v0] d IH]; simpl; intros Hnd Hin.
  - apply not_elem_of_nil in Hin. destruct Hin.
  - apply NoDup_cons in Hnd as [Hk0 Hnd].
    apply elem_of_cons in Hin as [Heq|Hin].
    + injection Heq as -> ->. rewrite String.eqb_refl. reflexivity.
    + destruct (String.eqb k0 k) eqn:E; [|apply IH; assumption].
      apply String.eqb_eq in E. subst k0. exfalso. apply Hk0.
      apply list_elem_of_fmap. exists (k, v). split; [reflexivity | exact Hin].
Qed.


Lemma odict_getitem_present (d : list (string * nat)) (k : string) (w : world) :
  k ∈ map fst d -> odict_getitem d k w = (Return (odict_get d k 0), w).
Proof.
  induction d as [|[k0 v0] d IH]; simpl; intros Hin.
  - apply not_elem_of_nil in Hin. destruct Hin.
  - destruct (String.eqb k0 k) eqn:E; [reflexivity|].
    apply IH. apply elem_of_cons in Hin as [->|Hin]; [|exact Hin].
    rewrite String.eqb_refl in E. discriminate.
Qed.



End Py.

(** ** agent_router.py *)

Module agent_router.
Import Py.

(** The names the top level of the file binds: the imports of lines 3-6, the
    class of line 8 and the function of line 49. *)
Definition module_globals : list string :=
  ["re"; "Dict"; "List"; "Tuple"; "Optional"; "json"; "get_gemini_response";
   "AgentRouter"; "_build_gemini_routing_prompt"].

(** The class of line 8.  Its body holds [route_request] alone: the [def] of
    line 49 starts at the first column, which closes the class, and the
    [def]s of lines 63 to 123 are indented under that function, after its
    [return]. *)
Definition AgentRouter : pyclass :=
  PyClass "AgentRouter" ["route_request"].

(** The [def]s written in the file, as a class holding all of them would
    offer them. *)
Definition defs_of_file : list string :=
  ["route_request"; "_build_gemini_routing_prompt"; "_fallback_route";
   "generate_clarification_response"; "analyze_conversation_flow";
   "_determine_conversation_type"; "get_routing_explanation"].

Record flow_report : Type := FlowReport {
  agent_usage : list (string * nat);
  total_messages : nat;
  dominant_agent : option string;
  conversation_type : string
}.

Section collaborators.

(** [utils.get_gemini_response] and [json.dumps], both outside the files at
    hand; [json.dumps] raises on a value it cannot serialise. *)
Variable get_gemini_response : string -> result string.
Variable json_dumps : option (gmap string pyval) -> result string.

(** Lines 49-61. *)
Definition _build_gemini_routing_prompt (self : pyclass) (text : string)
    (context : option (gmap string pyval)) : M string :=
  let prompt :=
    "Analyze the following user query and determine if it is related to property issues or tenancy law/rental guidance. " +:+ nl in
  prompt ←
    (if opt_dict_truthy context then
       lookup_global module_globals "json";;
       dumped ← of_result (json_dumps context);
       mret (prompt +:+ "Consider the following conversation context:" +:+ nl
             +:+ dumped +:+ nl +:+ nl)
     else mret prompt);
  let prompt := prompt +:+ "User query: " +:+ text +:+ nl +:+ nl in
  mret (prompt +:+ "Respond with only one word: 'issue' if it is related to property issues, 'tenancy' if it is related to tenancy law or rental guidance, or 'general' if it is neither or unclear.").

Definition tenancy_keywords : list string :=
  ["landlord"; "tenant"; "rent"; "deposit"; "evict"; "lease"; "rights";
   "law"; "legal"].

Definition issue_keywords : list string :=
  ["damage"; "broken"; "crack"; "leak"; "mold"; "repair"; "fix"; "issue"].

(** [sum(1 for keyword in keywords if keyword in text_lower)] *)
Definition keyword_score (keywords : list string) (text_lower : string) : nat :=
  py_sum (map (fun _ => 1)
            (List.filter (fun keyword => contains keyword text_lower) keywords)).

(** Lines 73 and 74. *)
Definition tenancy_score (text_lower : string) : nat :=
  keyword_score tenancy_keywords text_lower.

Definition issue_score (text_lower : string) : nat :=
  keyword_score issue_keywords text_lower.

(** Lines 63-81. *)
Definition _fallback_route (self : pyclass) (text : string) (has_image : bool)
    (context : option (gmap string pyval)) : string :=
  let text_lower := lower text in
  let tenancy_score := tenancy_score text_lower in
  let issue_score := issue_score text_lower in
  if has_image || (tenancy_score <? issue_score)%nat then "agent1"
  else if (issue_score <? tenancy_score)%nat then "agent2"
  else "router".

(** Lines 35-42: the label read off the model's answer. *)
Definition routing_label (gemini_response : string) : string :=
  let routing_decision := lower (strip gemini_response) in
  if contains "issue" routing_decision then "agent1"
  else if contains "tenancy" routing_decision then "agent2"
  else "router".

(** Lines 13-47. *)
Definition route_request (self : pyclass) (text : string) (has_image : bool)
    (context : option (gmap string pyval)) : M string :=
  if has_image then mret "agent1"
  else
    prompt ← (lookup_method self "_build_gemini_routing_prompt";;
              _build_gemini_routing_prompt self text context);
    try_except
      (lookup_global module_globals "get_gemini_response";;
       gemini_response ← call_model get_gemini_response prompt;
       mret (routing_label gemini_response))
      (fun e =>
         print ("Error calling Gemini API for routing: " +:+ exn_str e);;
         lookup_method self "_fallback_route";;
         mret (_fallback_route self text has_image context)).

Definition responses : list string :=
  ["I'm not sure if you need help with a property issue or a tenancy question. Can you please clarify?";
   "To assist you better, could you specify if your query is about a problem with a property or about rental/tenancy matters?";
   "Are you asking about a property issue or a question about tenancy laws? Please tell me more."].

(** Lines 83-93; [draw] is what the random generator would supply. *)
Definition generate_clarification_response (self : pyclass) (text : string)
    (context : option (gmap string pyval)) (draw : nat) : M (string * Q) :=
  let responses := responses in
  lookup_global module_globals "random";;
  mret (random_choice draw responses, 1%Q).

(** Lines 112-121. *)
Definition _determine_conversation_type (self : pyclass)
    (agent_usage : list (string * nat)) : M string :=
  agent1 ← odict_getitem agent_usage "agent1";
  agent2 ← odict_getitem agent_usage "agent2";
  if (agent2 <? agent1)%nat then mret "issue_focused"
  else
    agent2 ← odict_getitem agent_usage "agent2";
    agent1 ← odict_getitem agent_usage "agent1";
    if (agent1 <? agent2)%nat then mret "tenancy_focused"
    else mret "mixed".

(** The test of line 102. *)
Definition counted (msg : gmap string pyval) : bool :=
  bool_decide (dict_get msg "type" = PyStr "bot")
  && val_truthy (dict_get msg "agent").

(** The loop body, lines 102 and 103. *)
Definition count_message (agent_usage : list (string * nat))
    (msg : gmap string pyval) : list (string * nat) :=
  if counted msg then
    match dict_get msg "agent" with
    | PyStr agent => odict_set agent_usage agent (odict_get agent_usage agent 0 + 1)
    | PyNone => agent_usage
    end
  else agent_usage.

Definition initial_usage : list (string * nat) :=
  [("agent1", 0); ("agent2", 0); ("router", 0)].

(** Lines 95-110. *)
Definition analyze_conversation_flow (self : pyclass)
    (messages : list (gmap string pyval)) : M flow_report :=
  let agent_usage := fold_left count_message messages initial_usage in
  let nonempty := match messages with [] => false | _ :: _ => true end in
  dominant ← (if nonempty then
                key ← py_max_key agent_usage; mret (Some key)
              else mret None);
  flavour ← (if nonempty then
               lookup_method self "_determine_conversation_type";;
               _determine_conversation_type self agent_usage
             else mret "empty");
  mret (FlowReport agent_usage (length messages) dominant flavour).

(** *** The router: image shortcut, label parse and fallback *)

#[local] Ltac run :=
  cbv [mbind M_bind bind mret M_ret ret raise try_except print call_model
       of_result].

Lemma lookup_method_bound (self : pyclass) (name : string) (w : world) :
  name ∈ class_methods self -> lookup_method self name w = (Return tt, w).
Proof. intros H. unfold lookup_method. rewrite decide_True by exact H. reflexivity. Qed.

Lemma lookup_method_unbound (self : pyclass) (name : string) (w : world) :
  name ∉ class_methods self ->
  lookup_method self name w
  = (Raise (AttributeError ("'" +:+ class_name self
                            +:+ "' object has no attribute '" +:+ name +:+ "'")), w).
Proof. intros H. unfold lookup_method. rewrite decide_False by exact H. reflexivity. Qed.

Lemma lookup_global_bound (globals : list string) (name : string) (w : world) :
  name ∈ globals -> lookup_global globals name w = (Return tt, w).
Proof. intros H. unfold lookup_global. rewrite decide_True by exact H. reflexivity. Qed.

Lemma lookup_global_unbound (globals : list string) (name : string) (w : world) :
  name ∉ globals ->
  lookup_global globals name w
  = (Raise (NameError ("name '" +:+ name +:+ "' is not defined")), w).
Proof. intros H. unfold lookup_global. rewrite decide_False by exact H. reflexivity. Qed.

(** The prompt builder leaves the world as it was; [json] is imported by
    this file, so it fails only when [json.dumps] does, on a non-empty
    context. *)
Lemma build_routing_prompt_outcome (self : pyclass) (text : string)
    (context : option (gmap string pyval)) (w : world) :
  match (if opt_dict_truthy context then json_dumps context
         else Return EmptyString) with
  | Raise e => _build_gemini_routing_prompt self text context w = (Raise e, w)
  | Return _ =>
      exists prompt : string,
        _build_gemini_routing_prompt self text context w = (Return prompt, w)
  end.
Proof.
  unfold _build_gemini_routing_prompt.
  destruct (opt_dict_truthy context); run;
    rewrite ?lookup_global_bound by compute_done;
    [destruct (json_dumps context); [eexists|]; reflexivity
    | eexists; reflexivity].
Qed.

(** C1.  With an image attached [route_request] answers ['agent1'] at once,
    whatever the text, the context, the receiver and the behaviour of the
    external model: nothing is printed and no prompt is sent. *)
Theorem route_request_image_first (self : pyclass) (text : string)
    (context : option (gmap string pyval)) (w : world) :
  route_request self text true context w = (Return "agent1", w).
Proof. reflexivity. Qed.

(** C2, as the file stands.  [AgentRouter] has no method
    [_build_gemini_routing_prompt], so without an image the call of line 30,
    which is outside the [try], raises [AttributeError] to the caller;
    the model is not reached and no fallback is taken. *)
Theorem route_request_without_image_raises (text : string)
    (context : option (gmap string pyval)) (w : world) :
  route_request AgentRouter text false context w
  = (Raise (AttributeError
              "'AgentRouter' object has no attribute '_build_gemini_routing_prompt'"),
     w).
Proof. reflexivity. Qed.

(** The decision table of [_fallback_route] without an image. *)
Lemma fallback_route_decision (self : pyclass) (text : string)
    (context : option (gmap string pyval)) :
  let i := issue_score (lower text) in
  let t := tenancy_score (lower text) in
  (t < i -> _fallback_route self text false context = "agent1")
  /\ (i < t -> _fallback_route self text false context = "agent2")
  /\ (i = t -> _fallback_route self text false context = "router").
Proof.
  cbv zeta. unfold _fallback_route. simpl orb.
  repeat split; intros H.
  - apply Nat.ltb_lt in H. rewrite H. reflexivity.
  - destruct (Nat.ltb_spec (tenancy_score (lower text)) (issue_score (lower text)));
      [lia|]. apply Nat.ltb_lt in H. rewrite H. reflexivity.
  - rewrite H, Nat.ltb_irrefl. reflexivity.
Qed.

(** What lines 30-47 do on a receiver that does offer both helpers: when the
    prompt is built and the model call on that prompt fails with an error,
    that very error is printed, that very prompt is the one sent, and the
    keyword decision is returned. *)
Lemma route_request_fallback_when_bound (self : pyclass) (text : string)
    (context : option (gmap string pyval)) (w : world) (prompt : string)
    (e : exn) :
  "_build_gemini_routing_prompt" ∈ class_methods self ->
  "_fallback_route" ∈ class_methods self ->
  _build_gemini_routing_prompt self text context w = (Return prompt, w) ->
  get_gemini_response prompt = Raise e ->
  route_request self text false context w
  = (Return (_fallback_route self text false context),
     World (stdout w ++ ["Error calling Gemini API for routing: " +:+ exn_str e])
           (model_calls w ++ [prompt])).
Proof.
  intros Hb Hf Hp He. unfold route_request. run.
  rewrite (lookup_method_bound _ _ _ Hb), Hp.
  rewrite lookup_global_bound by compute_done. rewrite He.
  rewrite lookup_method_bound by exact Hf. reflexivity.
Qed.

(** On a receiver that offers the prompt builder, when the prompt is built
    and the model answers on that prompt, the answer is turned into
    [routing_label]; that prompt is the one sent and nothing is printed. *)
Lemma route_request_label_when_bound (self : pyclass) (text : string)
    (context : option (gmap string pyval)) (w : world) (prompt answer : string) :
  "_build_gemini_routing_prompt" ∈ class_methods self ->
  _build_gemini_routing_prompt self text context w = (Return prompt, w) ->
  get_gemini_response prompt = Return answer ->
  route_request self text false context w
  = (Return (routing_label answer),
     World (stdout w) (model_calls w ++ [prompt])).
Proof.
  intros Hb Hp Hok. unfold route_request. run.
  rewrite (lookup_method_bound _ _ _ Hb), Hp.
  rewrite lookup_global_bound by compute_done. rewrite Hok. reflexivity.
Qed.

Lemma contains_false_iff (k s : string) :
  contains k s = false <-> ~ substring_of k s.
Proof.
  rewrite <- contains_spec. destruct (contains k s); split; intros H;
    try reflexivity; try discriminate; try (exfalso; apply H; reflexivity).
Qed.

(** C3.  The label parse looks at the lowercased answer: ['agent1'] when it
    contains "issue", otherwise ['agent2'] when it contains "tenancy",
    otherwise ['router']; an answer holding both words yields ['agent1']. *)
Theorem routing_label_issue_first (gemini_response : string) :
  let answer := lower gemini_response in
  (substring_of "issue" answer -> routing_label gemini_response = "agent1")
  /\ (~ substring_of "issue" answer -> substring_of "tenancy" answer ->
      routing_label gemini_response = "agent2")
  /\ (~ substring_of "issue" answer -> ~ substring_of "tenancy" answer ->
      routing_label gemini_response = "router")
  /\ (substring_of "issue" answer -> substring_of "tenancy" answer ->
      routing_label gemini_response = "agent1").
Proof.
  cbv zeta. unfold routing_label.
  rewrite !contains_lower_strip by reflexivity.
  repeat split.
  - intros Hi. apply contains_spec in Hi. rewrite Hi. reflexivity.
  - intros Hi Ht. apply contains_false_iff in Hi. apply contains_spec in Ht.
    rewrite Hi, Ht. reflexivity.
  - intros Hi Ht. apply contains_false_iff in Hi, Ht. rewrite Hi, Ht. reflexivity.
  - intros Hi _. apply contains_spec in Hi. rewrite Hi. reflexivity.
Qed.

(** *** The keyword scorer *)

Lemma fold_add_ones {A} (l : list A) (acc : nat) :
  fold_left Nat.add (map (fun _ => 1) l) acc = acc + length l.
Proof.
  revert acc; induction l as [|x l IH]; intros acc; simpl; [lia|].
  rewrite IH. lia.
Qed.

Lemma keyword_score_length (keywords : list string) (text_lower : string) :
  keyword_score keywords text_lower
  = length (List.filter (fun keyword => contains keyword text_lower) keywords).
Proof. unfold keyword_score, py_sum. rewrite fold_add_ones. reflexivity. Qed.

(** The score is the size of the set of listed keywords that occur in the
    text. *)
Lemma keyword_score_counts_present (keywords : list string) (text_lower : string) :
  NoDup keywords ->
  exists hits : list string,
    NoDup hits
    /\ (forall k, k ∈ hits <-> k ∈ keywords /\ substring_of k text_lower)
    /\ keyword_score keywords text_lower = length hits.
Proof.
  intros Hnd.
  exists (List.filter (fun keyword => contains keyword text_lower) keywords).
  split; [|split].
  - apply NoDup_ListNoDup, List.NoDup_filter, NoDup_ListNoDup, Hnd.
  - intros k. rewrite !list_elem_of_In, List.filter_In, contains_spec. reflexivity.
  - apply keyword_score_length.
Qed.

Lemma keyword_score_bound (keywords : list string) (text_lower : string) :
  keyword_score keywords text_lower <= length keywords.
Proof. rewrite keyword_score_length. apply List.filter_length_le. Qed.

(** C4.  For every text, [issue_score] of the lowercased text is the number
    of distinct issue keywords that occur in it as substrings, each counted
    once however often it occurs, and [tenancy_score] likewise for the
    tenancy keywords; both are functions of the text alone, and both are 0
    on the empty string. *)
Theorem keyword_scores_count_distinct_hits (text : string) :
  let text_lower := lower text in
  (exists hits : list string,
      NoDup hits
      /\ (forall k, k ∈ hits <-> k ∈ issue_keywords /\ substring_of k text_lower)
      /\ issue_score text_lower = length hits)
  /\ (exists hits : list string,
         NoDup hits
         /\ (forall k, k ∈ hits <-> k ∈ tenancy_keywords /\ substring_of k text_lower)
         /\ tenancy_score text_lower = length hits)
  /\ issue_score text_lower <= 8
  /\ tenancy_score text_lower <= 9
  /\ (issue_score (lower ""), tenancy_score (lower "")) = (0, 0).
Proof.
  cbv zeta. repeat split.
  - apply keyword_score_counts_present. compute_done.
  - apply keyword_score_counts_present. compute_done.
  - apply (keyword_score_bound issue_keywords).
  - apply (keyword_score_bound tenancy_keywords).
Qed.

(** *** The conversation analytics *)

(** The assistant turns of a handler: the messages the loop of line 101
    counts under that key. *)
Definition turn_of (agent : string) (msg : gmap string pyval) : bool :=
  counted msg && bool_decide (dict_get msg "agent" = PyStr agent).

Definition turns (agent : string) (messages : list (gmap string pyval)) : nat :=
  length (List.filter (turn_of agent) messages).

(** [agent_usage] after the loop. *)
Definition usage_of (messages : list (gmap string pyval)) : list (string * nat) :=
  fold_left count_message messages initial_usage.

(** The three-way comparison of lines 116-121 on two counts. *)
Definition flavour_of (issue_turns tenancy_turns : nat) : string :=
  if (tenancy_turns <? issue_turns)%nat then "issue_focused"
  else if (issue_turns <? tenancy_turns)%nat then "tenancy_focused"
  else "mixed".

(** Log entries as the chat page records them. *)
Definition bot_turn (agent : string) : gmap string pyval :=
  {[ "type" := PyStr "bot"; "agent" := PyStr agent ]}.

Definition user_turn : gmap string pyval :=
  {[ "type" := PyStr "user" ]}.

(** A receiver that offers every [def] of the file as a method. *)
Definition receiver_with_defs : pyclass := PyClass "AgentRouter" defs_of_file.

Lemma count_message_get (d : list (string * nat)) (msg : gmap string pyval)
    (k : string) :
  odict_get (count_message d msg) k 0
  = odict_get d k 0 + (if turn_of k msg then 1 else 0).
Proof.
  unfold count_message, turn_of. destruct (counted msg) eqn:Hc; simpl; [|lia].
  unfold counted in Hc. apply andb_true_iff in Hc as [_ Ht].
  destruct (dict_get msg "agent") as [|agent]; [discriminate|].
  rewrite odict_get_set. destruct (String.eqb_spec agent k) as [->|Hne].
  - rewrite bool_decide_eq_true_2 by reflexivity. reflexivity.
  - rewrite bool_decide_eq_false_2 by congruence. lia.
Qed.

Lemma count_message_skip (d : list (string * nat)) (msg : gmap string pyval) :
  counted msg = false -> count_message d msg = d.
Proof. intros H. unfold count_message. rewrite H. reflexivity. Qed.

Lemma fold_count_get (messages : list (gmap string pyval))
    (d : list (string * nat)) (k : string) :
  odict_get (fold_left count_message messages d) k 0
  = odict_get d k 0 + turns k messages.
Proof.
  revert d; induction messages as [|msg messages IH]; intros d.
  - unfold turns. simpl. lia.
  - cbn [fold_left]. rewrite IH, count_message_get. unfold turns.
    cbn [List.filter]. destruct (turn_of k msg); simpl; lia.
Qed.

Lemma usage_get_turns (messages : list (gmap string pyval)) (k : string) :
  odict_get (usage_of messages) k 0 = turns k messages.
Proof.
  unfold usage_of. rewrite fold_count_get.
  assert (H : forall n, odict_get initial_usage k 0 + n = n); [|apply H].
  intros n. unfold initial_usage. cbn [odict_get].
  destruct (String.eqb "agent1" k); [reflexivity|].
  destruct (String.eqb "agent2" k); [reflexivity|].
  destruct (String.eqb "router" k); reflexivity.
Qed.

Lemma count_message_keys (d : list (string * nat)) (msg : gmap string pyval) :
  (NoDup (map fst d) -> NoDup (map fst (count_message d msg)))
  /\ exists extra, map fst (count_message d msg) = map fst d ++ extra.
Proof.
  unfold count_message. destruct (counted msg).
  2:{ split; [auto | exists []; rewrite app_nil_r; reflexivity]. }
  destruct (dict_get msg "agent") as [|agent].
  { split; [auto | exists []; rewrite app_nil_r; reflexivity]. }
  split; [apply odict_set_NoDup|].
  rewrite odict_set_keys. destruct (decide (agent ∈ map fst d)).
  - exists []. rewrite app_nil_r. reflexivity.
  - exists [agent]. reflexivity.
Qed.

Lemma fold_count_keys (messages : list (gmap string pyval))
    (d : list (string * nat)) :
  (NoDup (map fst d) -> NoDup (map fst (fold_left count_message messages d)))
  /\ exists extra,
       map fst (fold_left count_message messages d) = map fst d ++ extra.
Proof.
  revert d; induction messages as [|msg messages IH]; intros d.
  - split; [auto | exists []; rewrite app_nil_r; reflexivity].
  - cbn [fold_left]. destruct (IH (count_message d msg)) as [Hnd [extra He]].
    destruct (count_message_keys d msg) as [Hnd0 [extra0 He0]]. split.
    + auto.
    + exists (extra0 ++ extra). rewrite He, He0, app_assoc. reflexivity.
Qed.

(** The dictionary keeps its three initial keys in front, in the order of
    line 99, and its keys stay distinct. *)
Lemma usage_shape (messages : list (gmap string pyval)) :
  NoDup (map fst (usage_of messages))
  /\ exists (a b c : nat) (rest : list (string * nat)),
       usage_of messages
       = ("agent1", a) :: ("agent2", b) :: ("router", c) :: rest.
Proof.
  unfold usage_of.
  destruct (fold_count_keys messages initial_usage) as [Hnd [extra He]].
  split; [apply Hnd; compute_done|].
  destruct (fold_left count_message messages initial_usage)
    as [|[k1 a] [|[k2 b] [|[k3 c] rest]]]; try discriminate.
  simpl in He. injection He as -> -> -> _. eauto.
Qed.

Lemma determine_type_returns (self : pyclass) (d : list (string * nat))
    (w : world) :
  "agent1" ∈ map fst d -> "agent2" ∈ map fst d ->
  _determine_conversation_type self d w
  = (Return (flavour_of (odict_get d "agent1" 0) (odict_get d "agent2" 0)), w).
Proof.
  intros H1 H2. unfold _determine_conversation_type, flavour_of. run.
  rewrite !(odict_getitem_present d "agent1" w H1).
  rewrite !(odict_getitem_present d "agent2" w H2).
  destruct (odict_get d "agent2" 0 <? odict_get d "agent1" 0)%nat; [reflexivity|].
  rewrite !(odict_getitem_present d "agent2" w H2).
  rewrite !(odict_getitem_present d "agent1" w H1).
  destruct (odict_get d "agent1" 0 <? odict_get d "agent2" 0)%nat; reflexivity.
Qed.

(** What [analyze_conversation_flow] returns on a log that is not empty. *)
Lemma analyze_nonempty (self : pyclass) (messages : list (gmap string pyval))
    (w : world) :
  "_determine_conversation_type" ∈ class_methods self ->
  messages <> [] ->
  exists (item : string * nat) (rest : list (string * nat)),
    usage_of messages = item :: rest
    /\ analyze_conversation_flow self messages w
       = (Return (FlowReport (usage_of messages) (length messages)
                    (Some (max_from item rest))
                    (flavour_of (turns "agent1" messages) (turns "agent2" messages))),
          w).
Proof.
  intros Hm Hne.
  destruct (usage_shape messages) as [_ (a & b & c & rest & Hu)].
  exists ("agent1", a), (("agent2", b) :: ("router", c) :: rest).
  split; [exact Hu|].
  unfold analyze_conversation_flow. fold (usage_of messages).
  destruct messages as [|msg messages]; [contradiction|].
  set (log := msg :: messages) in *. rewrite Hu. cbn [py_max_key]. run.
  rewrite (lookup_method_bound _ _ _ Hm). rewrite <- Hu.
  rewrite determine_type_returns.
  - rewrite !usage_get_turns. reflexivity.
  - rewrite Hu. compute_done.
  - rewrite Hu. simpl. apply list_elem_of_further, list_elem_of_here.
Qed.

Lemma analyze_empty (self : pyclass) (w : world) :
  analyze_conversation_flow self [] w
  = (Return (FlowReport initial_usage 0 None "empty"), w).
Proof. reflexivity. Qed.



(** The value of [max(agent_usage, key=agent_usage.get)] at line 108. *)
Definition dominant_of (messages : list (gmap string pyval)) : string :=
  match usage_of messages with
  | [] => EmptyString
  | item :: rest => max_from item rest
  end.








(** What [analyze_conversation_flow] does on a log that is not empty, for
    any receiver. *)
Lemma analyze_outcome (self : pyclass) (messages : list (gmap string pyval))
    (w : world) :
  messages <> [] ->
  analyze_conversation_flow self messages w
  = if decide ("_determine_conversation_type" ∈ class_methods self)
    then (Return (FlowReport (usage_of messages) (length messages)
                    (Some (dominant_of messages))
                    (flavour_of (turns "agent1" messages) (turns "agent2" messages))),
          w)
    else (Raise (AttributeError
                   ("'" +:+ class_name self
                    +:+ "' object has no attribute '_determine_conversation_type'")),
          w).
Proof.
  intros Hne. destruct (decide _) as [Hm|Hm].
  - destruct (analyze_nonempty self messages w Hm Hne) as (item & rest & Hu & Hrun).
    rewrite Hrun. unfold dominant_of. rewrite Hu. reflexivity.
  - destruct (usage_shape messages) as [_ (a & b & c & rest & Hu)].
    unfold analyze_conversation_flow. fold (usage_of messages).
    destruct messages as [|msg messages]; [contradiction|].
    set (log := msg :: messages) in *. rewrite Hu. cbn [py_max_key]. run.
    rewrite (lookup_method_unbound _ _ _ Hm). reflexivity.
Qed.

(** A report, when one is returned, holds the loop's mapping and the length
    of the log; on a log that is not empty it holds the value of line 108. *)
Lemma analyze_report (self : pyclass) (messages : list (gmap string pyval))
    (w w' : world) (report : flow_report) :
  analyze_conversation_flow self messages w = (Return report, w') ->
  w' = w
  /\ agent_usage report = usage_of messages
  /\ total_messages report = length messages
  /\ (messages <> [] ->
      dominant_agent report = Some (dominant_of messages)
      /\ conversation_type report
         = flavour_of (turns "agent1" messages) (turns "agent2" messages)).
Proof.
  destruct messages as [|msg messages].
  - rewrite analyze_empty. intros H. injection H as <- <-.
    split; [reflexivity|]. split; [reflexivity|]. split; [reflexivity|].
    intros Hne. exfalso. apply Hne. reflexivity.
  - rewrite analyze_outcome by discriminate.
    destruct (decide _); [|discriminate].
    intros H. injection H as <- <-.
    split; [reflexivity|]. split; [reflexivity|]. split; [reflexivity|].
    intros _. split; reflexivity.
Qed.



(** C6, as agent_router.py stands.  On the class as written every log that is not
    empty makes [analyze_conversation_flow] raise [AttributeError] at line
    109: no flavour is returned.  The comparison of lines 116-121 itself,
    applied to the mapping of the loop, yields the three-way comparison of the
    agent1 and agent2 counts. *)
Theorem flavour_is_not_returned_by_the_class (msg : gmap string pyval)
    (messages : list (gmap string pyval)) (w : world) :
  analyze_conversation_flow AgentRouter (msg :: messages) w
  = (Raise (AttributeError
              "'AgentRouter' object has no attribute '_determine_conversation_type'"),
     w)
  /\ _determine_conversation_type AgentRouter (usage_of (msg :: messages)) w
     = (Return (flavour_of (turns "agent1" (msg :: messages))
                  (turns "agent2" (msg :: messages))),
        w).
Proof.
  split.
  - rewrite analyze_outcome by discriminate.
    rewrite decide_False by compute_done. reflexivity.
  - destruct (usage_shape (msg :: messages)) as [_ (a & b & c & rest & Hu)].
    rewrite determine_type_returns.
    + rewrite !usage_get_turns. reflexivity.
    + rewrite Hu. compute_done.
    + rewrite Hu. simpl. apply list_elem_of_further, list_elem_of_here.
Qed.

Lemma fold_count_skip (messages : list (gmap string pyval))
    (d : list (string * nat)) :
  Forall (fun m => counted m = false) messages ->
  fold_left count_message messages d = d.
Proof.
  induction 1 as [|msg messages Hc _ IH]; [reflexivity|].
  cbn [fold_left]. rewrite (count_message_skip _ _ Hc). exact IH.
Qed.

(** C10, as agent_router.py stands.  On a log that is not empty and holds no
    counted message, the mapping stays all zero, line 108 computes its first
    key agent1 and the comparison of lines 116-121 on that mapping gives
    mixed; but on the class as written the call raises [AttributeError] at
    line 109 and returns neither. *)
Theorem uncounted_log_raises_on_the_class (msg : gmap string pyval)
    (messages : list (gmap string pyval)) (w : world) :
  Forall (fun m => counted m = false) (msg :: messages) ->
  usage_of (msg :: messages) = initial_usage
  /\ py_max_key (usage_of (msg :: messages)) w = (Return "agent1", w)
  /\ _determine_conversation_type AgentRouter (usage_of (msg :: messages)) w
     = (Return "mixed", w)
  /\ analyze_conversation_flow AgentRouter (msg :: messages) w
     = (Raise (AttributeError
                 "'AgentRouter' object has no attribute '_determine_conversation_type'"),
        w).
Proof.
  intros Hc.
  assert (Hu : usage_of (msg :: messages) = initial_usage)
    by (unfold usage_of; apply fold_count_skip, Hc).
  split; [exact Hu|]. rewrite Hu.
  split; [reflexivity|]. split; [reflexivity|].
  rewrite analyze_outcome by discriminate.
  rewrite decide_False by compute_done. reflexivity.
Qed.

(** *** The clarifier *)

(** The pick of line 93, were it reached, lands in the fixed set. *)
Lemma random_choice_in_responses (draw : nat) :
  random_choice draw responses ∈ responses.
Proof.
  unfold random_choice. apply list_elem_of_In, nth_In.
  apply Nat.mod_upper_bound. discriminate.
Qed.

(** C9, as the file stands.  [generate_clarification_response] reads the
    global [random], which [agent_router.py] never imports: the call raises
    [NameError] before any prompt is picked, for every text, context and
    receiver, and nothing is sent to the model. *)
Theorem generate_clarification_raises_name_error (self : pyclass)
    (text : string) (context : option (gmap string pyval)) (draw : nat)
    (w : world) :
  generate_clarification_response self text context draw w
  = (Raise (NameError "name 'random' is not defined"), w).
Proof.
  unfold generate_clarification_response. run.
  rewrite lookup_global_unbound by compute_done. reflexivity.
Qed.

(** *** Further properties of the router and of the analytics *)

Lemma append_assoc (a b c : string) : (a +:+ b) +:+ c = a +:+ (b +:+ c).
Proof.
  induction a as [|x a IH]; [reflexivity|].
  change (String x ((a +:+ b) +:+ c) = String x (a +:+ (b +:+ c))).
  rewrite IH. reflexivity.
Qed.

Lemma lower_append (a b : string) : lower (a +:+ b) = lower a +:+ lower b.
Proof.
  induction a as [|x a IH]; [reflexivity|].
  change (String (lower_char x) (lower (a +:+ b))
          = String (lower_char x) (lower a +:+ lower b)).
  rewrite IH. reflexivity.
Qed.

Lemma lower_char_idempotent (c : ascii) : lower_char (lower_char c) = lower_char c.
Proof. destruct c as [[] [] [] [] [] [] [] []]; reflexivity. Qed.

Lemma lower_idempotent (s : string) : lower (lower s) = lower s.
Proof.
  induction s as [|c s IH]; simpl; [reflexivity|].
  rewrite lower_char_idempotent, IH. reflexivity.
Qed.

Lemma substring_of_lower (s t : string) :
  substring_of s t -> substring_of (lower s) (lower t).
Proof.
  intros (pre & post & ->). exists (lower pre), (lower post).
  rewrite !lower_append. reflexivity.
Qed.

Lemma substring_of_trans (k s t : string) :
  substring_of k s -> substring_of s t -> substring_of k t.
Proof.
  intros (p1 & q1 & ->) (p2 & q2 & ->). exists (p2 +:+ p1), (q1 +:+ q2).
  rewrite !append_assoc. reflexivity.
Qed.

Lemma filter_length_mono {A} (f g : A -> bool) (l : list A) :
  (forall x, f x = true -> g x = true) ->
  length (List.filter f l) <= length (List.filter g l).
Proof.
  intros Hfg. induction l as [|x l IH]; simpl; [lia|].
  destruct (f x) eqn:Ef.
  - rewrite (Hfg x Ef). simpl. lia.
  - destruct (g x); simpl; lia.
Qed.

Lemma keyword_score_mono (keywords : list string) (s t : string) :
  substring_of s t -> keyword_score keywords s <= keyword_score keywords t.
Proof.
  intros Hst. rewrite !keyword_score_length. apply filter_length_mono.
  intros k Hk. apply contains_spec. apply contains_spec in Hk.
  eapply substring_of_trans; eassumption.
Qed.

(** Extending a text, in front or behind, never lowers either score: every
    keyword found in a fragment is found in any text holding the fragment. *)
Theorem scores_grow_with_the_text (fragment text : string) :
  substring_of fragment text ->
  issue_score (lower fragment) <= issue_score (lower text)
  /\ tenancy_score (lower fragment) <= tenancy_score (lower text).
Proof.
  intros H. apply substring_of_lower in H.
  split; apply keyword_score_mono, H.
Qed.

(** The fallback decision does not see letter case, the receiver or the
    context: lowercasing the text beforehand changes nothing. *)
Theorem fallback_route_ignores_case (self self' : pyclass) (text : string)
    (has_image : bool) (context context' : option (gmap string pyval)) :
  _fallback_route self (lower text) has_image context
  = _fallback_route self' text has_image context'.
Proof. unfold _fallback_route. rewrite lower_idempotent. reflexivity. Qed.

Lemma routing_label_range (gemini_response : string) :
  routing_label gemini_response ∈ ["agent1"; "agent2"; "router"].
Proof.
  unfold routing_label.
  destruct (contains "issue" _); [compute_done|].
  destruct (contains "tenancy" _); compute_done.
Qed.

Lemma fallback_route_range (self : pyclass) (text : string) (has_image : bool)
    (context : option (gmap string pyval)) :
  _fallback_route self text has_image context ∈ ["agent1"; "agent2"; "router"].
Proof.
  unfold _fallback_route.
  destruct (has_image || _); [compute_done|].
  destruct (_ <? _)%nat; compute_done.
Qed.

(** On a receiver that offers [_build_gemini_routing_prompt] and
    [_fallback_route]: with an image, or with a context that is empty or
    that [json.dumps] can serialise, [route_request] returns one of the
    three labels whatever the model does, sends at most one prompt and
    prints at most one line; without an image and with a non-empty context
    on which [json.dumps] raises, that exception leaves [route_request]
    (line 30 is outside the [try]) and nothing is sent or printed. *)
Theorem route_request_outcomes_when_helpers_bound (self : pyclass)
    (text : string) (has_image : bool)
    (context : option (gmap string pyval)) (w : world) :
  "_build_gemini_routing_prompt" ∈ class_methods self ->
  "_fallback_route" ∈ class_methods self ->
  match (if has_image then Return EmptyString
         else if opt_dict_truthy context then json_dumps context
         else Return EmptyString) with
  | Raise e => route_request self text has_image context w = (Raise e, w)
  | Return _ =>
      exists (label : string) (lines prompts : list string),
        route_request self text has_image context w
        = (Return label, World (stdout w ++ lines) (model_calls w ++ prompts))
        /\ label ∈ ["agent1"; "agent2"; "router"]
        /\ length lines <= 1
        /\ length prompts <= 1
  end.
Proof.
  intros Hb Hf. destruct has_image.
  - exists "agent1", [], []. rewrite !app_nil_r. destruct w.
    split; [reflexivity|]. split; [compute_done | simpl; lia].
  - pose proof (build_routing_prompt_outcome self text context w) as Hp.
    unfold route_request. run. rewrite (lookup_method_bound _ _ _ Hb).
    destruct (if opt_dict_truthy context then json_dumps context
              else Return EmptyString) as [dumped|e].
    2:{ rewrite Hp. reflexivity. }
    destruct Hp as [prompt Hp]. rewrite Hp.
    rewrite lookup_global_bound by compute_done.
    destruct (get_gemini_response prompt) as [answer|e].
    + exists (routing_label answer), [], [prompt]. rewrite app_nil_r.
      split; [reflexivity|]. split; [apply routing_label_range | simpl; lia].
    + rewrite lookup_method_bound by exact Hf.
      eexists _, [_], [prompt]. split; [reflexivity|].
      split; [apply fallback_route_range | simpl; lia].
Qed.

Lemma append_empty_r (a : string) : a +:+ EmptyString = a.
Proof.
  induction a as [|x a IH]; [reflexivity|].
  change (String x (a +:+ EmptyString) = String x a). rewrite IH. reflexivity.
Qed.

Lemma substring_of_refl (k : string) : substring_of k k.
Proof.
  exists EmptyString, EmptyString.
  change (k = k +:+ EmptyString). rewrite append_empty_r. reflexivity.
Qed.

Lemma substring_of_append_l (k a s : string) :
  substring_of k s -> substring_of k (a +:+ s).
Proof.
  intros (pre & post & ->). exists (a +:+ pre), post.
  rewrite append_assoc. reflexivity.
Qed.

Lemma substring_of_append_r (k s b : string) :
  substring_of k s -> substring_of k (s +:+ b).
Proof.
  intros (pre & post & ->). exists pre, (post +:+ b).
  rewrite !append_assoc. reflexivity.
Qed.

Lemma substring_of_head (a b c : string) :
  substring_of (a +:+ b) (a +:+ (b +:+ c)).
Proof. rewrite <- append_assoc. apply substring_of_append_r, substring_of_refl. Qed.

#[local] Ltac part :=
  first [ apply substring_of_head
        | apply substring_of_refl
        | solve [apply substring_of_append_r; part]
        | solve [apply substring_of_append_l; part] ].

(** The routing prompt builder: on a non-empty context that [json.dumps]
    cannot serialise, the exception of [json.dumps] is the builder's;
    otherwise a prompt is returned, it holds the user's text verbatim after
    "User query: ", and for a non-empty context it holds what [json.dumps]
    returned.  An empty dictionary is treated as no context at all. *)
Theorem routing_prompt_holds_the_query (self : pyclass) (text : string)
    (context : option (gmap string pyval)) (w : world) :
  match (if opt_dict_truthy context then json_dumps context
         else Return EmptyString) with
  | Raise e => _build_gemini_routing_prompt self text context w = (Raise e, w)
  | Return dumped =>
      exists prompt : string,
        _build_gemini_routing_prompt self text context w = (Return prompt, w)
        /\ substring_of ("User query: " +:+ text) prompt
        /\ (opt_dict_truthy context = true -> substring_of dumped prompt)
  end
  /\ _build_gemini_routing_prompt self text (Some ∅) w
     = _build_gemini_routing_prompt self text None w.
Proof.
  split; [|reflexivity]. unfold _build_gemini_routing_prompt.
  destruct (opt_dict_truthy context) eqn:Hc; run;
    rewrite ?lookup_global_bound by compute_done.
  - destruct (json_dumps context) as [dumped|e]; [|reflexivity].
    eexists. split; [reflexivity|]. split; [part | intros _; part].
  - eexists. split; [reflexivity|]. split; [part | discriminate].
Qed.

Lemma odict_getitem_absent (d : list (string * nat)) (k : string) (w : world) :
  k ∉ map fst d -> odict_getitem d k w = (Raise (KeyError k), w).
Proof.
  induction d as [|[k0 v0] d IH]; simpl; intros Hout; [reflexivity|].
  destruct (String.eqb_spec k0 k) as [->|Hne].
  - exfalso. apply Hout, list_elem_of_here.
  - apply IH. intros Hin. apply Hout, list_elem_of_further, Hin.
Qed.

(** [_determine_conversation_type] indexes the mapping: on a mapping without
    the key 'agent1' it raises [KeyError] for that key, and on one with
    'agent1' but without 'agent2' it raises [KeyError] for 'agent2'. *)
Theorem determine_type_needs_both_keys (self : pyclass)
    (agent_usage : list (string * nat)) (w : world) :
  ("agent1" ∉ map fst agent_usage) \/ ("agent2" ∉ map fst agent_usage) ->
  exists key : string,
    _determine_conversation_type self agent_usage w = (Raise (KeyError key), w)
    /\ (key ∉ map fst agent_usage)
    /\ (key = "agent1" \/ (key = "agent2" /\ "agent1" ∈ map fst agent_usage)).
Proof.
  intros H. unfold _determine_conversation_type. run.
  destruct (decide ("agent1" ∈ map fst agent_usage)) as [H1|H1].
  - destruct H as [H|H2]; [contradiction|].
    exists "agent2". rewrite (odict_getitem_present _ _ _ H1).
    rewrite (odict_getitem_absent _ _ _ H2). auto.
  - exists "agent1". rewrite (odict_getitem_absent _ _ _ H1). auto.
Qed.

Lemma odict_increment_sum (d : list (string * nat)) (k : string) :
  sum_list (map snd (odict_set d k (odict_get d k 0 + 1)))
  = sum_list (map snd d) + 1.
Proof.
  induction d as [|[k0 v0] d IH]; cbn [odict_set odict_get]; [reflexivity|].
  destruct (String.eqb k0 k).
  - change (v0 + 1 + sum_list (map snd d) = v0 + sum_list (map snd d) + 1). lia.
  - change (v0 + sum_list (map snd (odict_set d k (odict_get d k 0 + 1)))
            = v0 + sum_list (map snd d) + 1).
    rewrite IH. lia.
Qed.

Lemma count_message_sum (d : list (string * nat)) (msg : gmap string pyval) :
  sum_list (map snd (count_message d msg))
  = sum_list (map snd d) + (if counted msg then 1 else 0).
Proof.
  unfold count_message. destruct (counted msg) eqn:Hc; [|lia].
  unfold counted in Hc. apply andb_true_iff in Hc as [_ Ht].
  destruct (dict_get msg "agent") as [|agent]; [discriminate|].
  apply odict_increment_sum.
Qed.

Lemma fold_count_sum (messages : list (gmap string pyval))
    (d : list (string * nat)) :
  sum_list (map snd (fold_left count_message messages d))
  = sum_list (map snd d) + length (List.filter counted messages).
Proof.
  revert d; induction messages as [|msg messages IH]; intros d; simpl; [lia|].
  rewrite IH, count_message_sum. destruct (counted msg); simpl; lia.
Qed.

(** What [analyze_conversation_flow] returns, for any log. *)
Lemma analyze_returns (self : pyclass) (messages : list (gmap string pyval))
    (w : world) :
  "_determine_conversation_type" ∈ class_methods self ->
  exists report : flow_report,
    analyze_conversation_flow self messages w = (Return report, w)
    /\ agent_usage report = usage_of messages
    /\ total_messages report = length messages
    /\ conversation_type report
       = match messages with
         | [] => "empty"
         | _ :: _ => flavour_of (turns "agent1" messages) (turns "agent2" messages)
         end.
Proof.
  intros Hm. destruct messages as [|msg messages].
  - eexists. split; [apply analyze_empty|]. auto.
  - destruct (analyze_nonempty self (msg :: messages) w Hm) as (item & rest & _ & Hrun);
      [discriminate|].
    eexists. split; [exact Hrun|]. auto.
Qed.

(** The usage counts add up: their sum is the number of messages the loop
    counted (bot messages with a non-empty agent), which never exceeds
    [total_messages], the length of the log. *)
Theorem usage_counts_add_up (self : pyclass)
    (messages : list (gmap string pyval)) (w : world) :
  "_determine_conversation_type" ∈ class_methods self ->
  exists report : flow_report,
    analyze_conversation_flow self messages w = (Return report, w)
    /\ sum_list (map snd (agent_usage report))
       = length (List.filter counted messages)
    /\ sum_list (map snd (agent_usage report)) <= total_messages report
    /\ total_messages report = length messages.
Proof.
  intros Hm.
  destruct (analyze_returns self messages w Hm) as (report & Hrun & Hu & Ht & _).
  exists report. split; [exact Hrun|]. rewrite Hu, Ht. unfold usage_of.
  rewrite fold_count_sum. cbn. split; [reflexivity|]. split; [|reflexivity].
  apply List.filter_length_le.
Qed.

Lemma turns_positive (k : string) (messages : list (gmap string pyval)) :
  0 < turns k messages <-> exists msg, msg ∈ messages /\ turn_of k msg = true.
Proof.
  unfold turns. induction messages as [|m messages IH]; cbn [List.filter].
  - simpl. split; [lia|]. intros (msg & Hin & _). apply not_elem_of_nil in Hin. destruct Hin.
  - destruct (turn_of k m) eqn:E.
    + simpl. split; [|lia]. intros _. exists m. split; [apply list_elem_of_here | exact E].
    + rewrite IH. split.
      * intros (msg & Hin & Ht). exists msg. split; [apply list_elem_of_further, Hin | exact Ht].
      * intros (msg & Hin & Ht). apply elem_of_cons in Hin as [->|Hin]; [congruence|].
        exists msg. auto.
Qed.

Lemma count_message_key (d : list (string * nat)) (msg : gmap string pyval)
    (k : string) :
  k ∈ map fst (count_message d msg) <-> k ∈ map fst d \/ turn_of k msg = true.
Proof.
  unfold count_message, turn_of. destruct (counted msg) eqn:Hc; simpl.
  2:{ split; [auto | intros [H|H]; [exact H | discriminate]]. }
  unfold counted in Hc. apply andb_true_iff in Hc as [_ Ht].
  destruct (dict_get msg "agent") as [|agent]; [discriminate|].
  rewrite odict_set_keys, bool_decide_eq_true.
  destruct (decide (agent ∈ map fst d)) as [Hin|Hout].
  - split; [auto|]. intros [H|H]; [exact H|]. injection H as ->. exact Hin.
  - rewrite elem_of_app, list_elem_of_singleton. split.
    + intros [H| ->]; auto.
    + intros [H|H]; [auto|]. injection H as ->. auto.
Qed.

Lemma fold_count_key (messages : list (gmap string pyval))
    (d : list (string * nat)) (k : string) :
  k ∈ map fst (fold_left count_message messages d)
  <-> k ∈ map fst d \/ 0 < turns k messages.
Proof.
  revert d; induction messages as [|msg messages IH]; intros d.
  - simpl. unfold turns. simpl. split; [auto | intros [H|H]; [exact H | lia]].
  - cbn [fold_left]. rewrite IH, count_message_key.
    unfold turns. cbn [List.filter]. destruct (turn_of k msg); simpl.
    + split; [intros _; right; lia | intros _; left; right; reflexivity].
    + split.
      * intros [[H|H]|H]; [auto | discriminate | auto].
      * intros [H|H]; auto.
Qed.

(** The keys of the mapping built by the loop of lines 99-103 are
    distinct; they are the three initial handlers together with every other
    agent name that labels a counted message, so a name outside the three
    gets a key of its own as soon as it occurs; each key holds exactly its
    number of counted messages; and this mapping is the [agent_usage] of
    every report the call returns. *)
Theorem usage_keys_are_the_agents_seen (messages : list (gmap string pyval)) :
  NoDup (map fst (usage_of messages))
  /\ (forall k, k ∈ map fst (usage_of messages)
                <-> k ∈ ["agent1"; "agent2"; "router"] \/ 0 < turns k messages)
  /\ (forall k v, (k, v) ∈ usage_of messages -> v = turns k messages)
  /\ (forall (self : pyclass) (w w' : world) (report : flow_report),
        analyze_conversation_flow self messages w = (Return report, w') ->
        agent_usage report = usage_of messages).
Proof.
  destruct (usage_shape messages) as [Hnd _].
  split; [exact Hnd|]. split; [|split].
  - intros k. unfold usage_of. apply fold_count_key.
  - intros k v Hin. rewrite <- usage_get_turns. symmetry.
    apply odict_get_item; assumption.
  - intros self w w' report Hrun.
    apply (analyze_report _ _ _ _ _ Hrun).
Qed.

Lemma turns_Permutation (k : string) (l l' : list (gmap string pyval)) :
  l ≡ₚ l' -> turns k l = turns k l'.
Proof.
  unfold turns. induction 1 as [|x l l' _ IH|x y l|l l' l'' _ IH1 _ IH2];
    cbn [List.filter].
  - reflexivity.
  - destruct (turn_of k x); simpl; lia.
  - destruct (turn_of k x), (turn_of k y); reflexivity.
  - lia.
Qed.

(** Reordering the log changes no count of the mapping built by the loop,
    and it does not change how the call ends: for any receiver the two calls
    raise the same error, or both return, with the same total, the same
    flavour and the same count for every agent. *)
Theorem flavour_and_counts_ignore_order (self : pyclass)
    (messages messages' : list (gmap string pyval)) (w : world) :
  messages ≡ₚ messages' ->
  (forall k, odict_get (usage_of messages) k 0 = odict_get (usage_of messages') k 0)
  /\ match analyze_conversation_flow self messages w,
           analyze_conversation_flow self messages' w with
     | (Return report, w1), (Return report', w1') =>
         w1 = w1'
         /\ (forall k, odict_get (agent_usage report) k 0
                       = odict_get (agent_usage report') k 0)
         /\ total_messages report = total_messages report'
         /\ conversation_type report = conversation_type report'
     | (Raise e, w1), (Raise e', w1') => e = e' /\ w1 = w1'
     | _, _ => False
     end.
Proof.
  intros Hp.
  assert (Hk : forall k, odict_get (usage_of messages) k 0
                         = odict_get (usage_of messages') k 0).
  { intros k. rewrite !usage_get_turns. apply turns_Permutation, Hp. }
  split; [exact Hk|].
  destruct messages as [|m ms], messages' as [|m' ms'].
  - rewrite analyze_empty. auto.
  - apply Permutation_nil_l in Hp. discriminate.
  - apply Permutation_nil_r in Hp. discriminate.
  - rewrite !analyze_outcome by discriminate.
    destruct (decide _); [|split; reflexivity].
    cbn [agent_usage total_messages conversation_type].
    split; [reflexivity|]. split; [exact Hk|]. split.
    + apply Permutation_length, Hp.
    + rewrite !(turns_Permutation _ _ _ Hp). reflexivity.
Qed.

(** Appending a message the loop does not count (a user message, or a bot
    message without agent) to a log that is not empty leaves the mapping of
    the loop and the value of line 108 as they were, and it does not change
    how the call ends: for any receiver the two calls raise the same error,
    or both return, with the same usage counts, dominant agent and flavour
    and with [total_messages] grown by one. *)
Theorem uncounted_message_only_adds_to_total (self : pyclass)
    (messages : list (gmap string pyval)) (msg : gmap string pyval) (w : world) :
  messages <> [] ->
  counted msg = false ->
  usage_of (messages ++ [msg]) = usage_of messages
  /\ py_max_key (usage_of (messages ++ [msg])) w = py_max_key (usage_of messages) w
  /\ match analyze_conversation_flow self messages w,
           analyze_conversation_flow self (messages ++ [msg]) w with
     | (Return report, w1), (Return report', w1') =>
         w1 = w1'
         /\ agent_usage report' = agent_usage report
         /\ dominant_agent report' = dominant_agent report
         /\ conversation_type report' = conversation_type report
         /\ total_messages report' = S (total_messages report)
     | (Raise e, w1), (Raise e', w1') => e = e' /\ w1 = w1'
     | _, _ => False
     end.
Proof.
  intros Hne Hc.
  assert (Hu : usage_of (messages ++ [msg]) = usage_of messages).
  { unfold usage_of. rewrite fold_left_app. cbn [fold_left].
    apply count_message_skip, Hc. }
  assert (Ht : forall k, turns k (messages ++ [msg]) = turns k messages).
  { intros k. rewrite <- !usage_get_turns, Hu. reflexivity. }
  assert (Hd : dominant_of (messages ++ [msg]) = dominant_of messages)
    by (unfold dominant_of; rewrite Hu; reflexivity).
  assert (Hne' : messages ++ [msg] <> []).
  { intros E. apply app_eq_nil in E as [_ E]. discriminate. }
  split; [exact Hu|]. split; [rewrite Hu; reflexivity|].
  rewrite (analyze_outcome self messages w Hne).
  rewrite (analyze_outcome self (messages ++ [msg]) w Hne').
  destruct (decide _); [|split; reflexivity].
  cbn [agent_usage dominant_agent conversation_type total_messages].
  rewrite Hu, Hd, !Ht, length_app. simpl. repeat split. lia.
Qed.

End collaborators.

(** *** Concrete runs *)


Definition unlabelled_bot_turn : gmap string pyval :=
  {[ "type" := PyStr "bot"; "agent" := PyNone ]}.

Definition quiet_log : list (gmap string pyval) :=
  [user_turn; unlabelled_bot_turn].

(** Spec property 3: the scorer ignores case and matches substrings. *)
Example scorer_ignores_case :
  (issue_score (Py.lower "Broken pipe and a LEAK"),
   tenancy_score (Py.lower "Broken pipe and a LEAK")) = (2, 0).
Proof. vm_compute. reflexivity. Qed.

(** Spec property 7: two issue turns and one tenancy turn. *)
Example two_issue_one_tenancy :
  analyze_conversation_flow receiver_with_defs
    [bot_turn "agent1"; bot_turn "agent2"; bot_turn "agent1"] fresh
  = (Return (FlowReport [("agent1", 2); ("agent2", 1); ("router", 0)] 3
               (Some "agent1") "issue_focused"),
     fresh).
Proof. vm_compute. reflexivity. Qed.

(** Spec property 4: an answer holding both label words resolves to the
    issue handler. *)
Lemma routing_label_both_words :
  routing_label "This seems like a tenancy issue matter" = "agent1".
Proof.
  destruct (routing_label_issue_first "This seems like a tenancy issue matter")
    as (_ & _ & _ & H).
  apply H; apply Py.contains_spec; vm_compute; reflexivity.
Defined.



Lemma quiet_log_run :
  Forall (fun m => counted m = false) quiet_log
  /\ usage_of quiet_log = initial_usage
  /\ py_max_key (usage_of quiet_log) fresh = (Return "agent1", fresh)
  /\ _determine_conversation_type AgentRouter (usage_of quiet_log) fresh
     = (Return "mixed", fresh)
  /\ analyze_conversation_flow AgentRouter quiet_log fresh
     = (Raise (AttributeError
                 "'AgentRouter' object has no attribute '_determine_conversation_type'"),
        fresh).
Proof.
  assert (Hall : Forall (fun m => counted m = false) quiet_log).
  { repeat (constructor; [vm_compute; reflexivity|]). constructor. }
  split; [exact Hall|].
  exact (uncounted_log_raises_on_the_class user_turn [unlabelled_bot_turn] fresh Hall).
Defined.

(** *** Concrete runs of the further properties *)

(** A model that is down, and a stand-in for [json.dumps]. *)
Definition model_down : string -> result string :=
  fun _ => Raise (ModelError "503 Service Unavailable").

Definition dumps_braces : option (gmap string pyval) -> result string :=
  fun _ => Return "{}".

Definition mixed_log : list (gmap string pyval) :=
  [bot_turn "agent2"; user_turn; bot_turn "inspector"; bot_turn "agent2"].

Lemma scores_grow_run :
  substring_of "a leak" "My LANDLORD ignores a leak"
  /\ issue_score (lower "a leak") <= issue_score (lower "My LANDLORD ignores a leak")
  /\ tenancy_score (lower "a leak") <= tenancy_score (lower "My LANDLORD ignores a leak").
Proof.
  assert (H : substring_of "a leak" "My LANDLORD ignores a leak")
    by (apply Py.contains_spec; vm_compute; reflexivity).
  split; [exact H|]. apply (scores_grow_with_the_text _ _ H).
Defined.

Lemma route_request_down_run :
  exists (label : string) (lines prompts : list string),
    route_request model_down dumps_braces receiver_with_defs
      "my landlord kept my deposit" false None fresh
    = (Return label, World (stdout fresh ++ lines) (model_calls fresh ++ prompts))
    /\ label ∈ ["agent1"; "agent2"; "router"]
    /\ length lines <= 1
    /\ length prompts <= 1.
Proof.
  apply (route_request_outcomes_when_helpers_bound model_down dumps_braces
           receiver_with_defs "my landlord kept my deposit" false None fresh);
    compute_done.
Defined.

Lemma determine_type_router_only_run :
  exists key : string,
    _determine_conversation_type receiver_with_defs [("router", 2)] fresh
    = (Raise (KeyError key), fresh)
    /\ (key ∉ map fst [("router", 2)])
    /\ (key = "agent1" \/ (key = "agent2" /\ "agent1" ∈ map fst [("router", 2)])).
Proof.
  apply (determine_type_needs_both_keys receiver_with_defs [("router", 2)] fresh).
  left. compute_done.
Defined.

Lemma usage_counts_add_up_run :
  exists report : flow_report,
    analyze_conversation_flow receiver_with_defs mixed_log fresh
    = (Return report, fresh)
    /\ sum_list (map snd (agent_usage report)) = 3
    /\ total_messages report = 4.
Proof.
  destruct (usage_counts_add_up receiver_with_defs mixed_log fresh)
    as (report & Hrun & Hsum & _ & Htotal); [compute_done|].
  exists report. split; [exact Hrun|]. split; [rewrite Hsum | rewrite Htotal];
    vm_compute; reflexivity.
Defined.

Lemma usage_keys_run :
  "inspector" ∈ map fst (usage_of mixed_log)
  /\ ("surveyor" ∉ map fst (usage_of mixed_log)).
Proof.
  destruct (usage_keys_are_the_agents_seen mixed_log) as (_ & Hkeys & _).
  split.
  - apply Hkeys. right. vm_compute. lia.
  - intros Hin. apply Hkeys in Hin as [Hin|Hin].
    + revert Hin. compute_done.
    + vm_compute in Hin. lia.
Defined.

Lemma reordered_log_run :
  mixed_log ≡ₚ rev mixed_log
  /\ odict_get (usage_of mixed_log) "agent2" 0
     = odict_get (usage_of (rev mixed_log)) "agent2" 0
  /\ match analyze_conversation_flow AgentRouter mixed_log fresh,
           analyze_conversation_flow AgentRouter (rev mixed_log) fresh with
     | (Return report, w1), (Return report', w1') =>
         w1 = w1'
         /\ (forall k, odict_get (agent_usage report) k 0
                       = odict_get (agent_usage report') k 0)
         /\ total_messages report = total_messages report'
         /\ conversation_type report = conversation_type report'
     | (Raise e, w1), (Raise e', w1') => e = e' /\ w1 = w1'
     | _, _ => False
     end.
Proof.
  assert (Hp : mixed_log ≡ₚ rev mixed_log) by apply Permutation_rev.
  destruct (flavour_and_counts_ignore_order AgentRouter mixed_log (rev mixed_log)
              fresh Hp) as [Hk Hrun].
  split; [exact Hp|]. split; [apply Hk | exact Hrun].
Defined.

Lemma uncounted_message_run :
  mixed_log <> []
  /\ counted user_turn = false
  /\ usage_of (mixed_log ++ [user_turn]) = usage_of mixed_log
  /\ py_max_key (usage_of (mixed_log ++ [user_turn])) fresh
     = py_max_key (usage_of mixed_log) fresh
  /\ match analyze_conversation_flow AgentRouter mixed_log fresh,
           analyze_conversation_flow AgentRouter (mixed_log ++ [user_turn]) fresh with
     | (Return report, w1), (Return report', w1') =>
         w1 = w1'
         /\ agent_usage report' = agent_usage report
         /\ dominant_agent report' = dominant_agent report
         /\ conversation_type report' = conversation_type report
         /\ total_messages report' = S (total_messages report)
     | (Raise e, w1), (Raise e', w1') => e = e' /\ w1 = w1'
     | _, _ => False
     end.
Proof.
  assert (Hne : mixed_log <> []) by discriminate.
  assert (Hc : counted user_turn = false) by (vm_compute; reflexivity).
  split; [exact Hne|]. split; [exact Hc|].
  exact (uncounted_message_only_adds_to_total AgentRouter mixed_log user_turn
           fresh Hne Hc).
Defined.

Definition model_says (answer : string) : string -> result string :=
  fun _ => Return answer.

(** The prompt of this run, named by running the builder. *)
Definition deposit_prompt : string :=
  match _build_gemini_routing_prompt dumps_braces receiver_with_defs
          "my landlord kept my deposit" None fresh with
  | (Return prompt, _) => prompt
  | (Raise _, _) => EmptyString
  end.

Lemma route_request_fallback_run :
  route_request model_down dumps_braces receiver_with_defs
    "my landlord kept my deposit" false None fresh
  = (Return (_fallback_route receiver_with_defs "my landlord kept my deposit"
               false None),
     World (stdout fresh
            ++ ["Error calling Gemini API for routing: "
                +:+ exn_str (ModelError "503 Service Unavailable")])
           (model_calls fresh ++ [deposit_prompt])).
Proof.
  apply (route_request_fallback_when_bound model_down dumps_braces
           receiver_with_defs "my landlord kept my deposit" None fresh
           deposit_prompt (ModelError "503 Service Unavailable"));
    [compute_done | compute_done | reflexivity | reflexivity].
Defined.

Lemma route_request_label_run :
  route_request (model_says "Tenancy.") dumps_braces receiver_with_defs
    "my landlord kept my deposit" false None fresh
  = (Return (routing_label "Tenancy."),
     World (stdout fresh) (model_calls fresh ++ [deposit_prompt])).
Proof.
  apply (route_request_label_when_bound (model_says "Tenancy.") dumps_braces
           receiver_with_defs "my landlord kept my deposit" None fresh
           deposit_prompt "Tenancy.");
    [compute_done | reflexivity | reflexivity].
Defined.

End agent_router.

(** ** tenancy_faq_agent.py *)

Module tenancy_faq_agent.
Import Py.

(** The names the top level of the file binds: the imports of lines 3-6 and
    the class of line 8.  There is no [import json]. *)
Definition module_globals : list string :=
  ["random"; "Dict"; "List"; "Tuple"; "Optional"; "re"; "get_gemini_response";
   "TenancyFAQAgent"].

(** The class of line 8; all six [def]s are indented under it. *)
Definition TenancyFAQAgent : pyclass :=
  PyClass "TenancyFAQAgent"
    ["process_request"; "_build_gemini_prompt"; "_parse_gemini_response";
     "get_emergency_resources"; "generate_document_template";
     "get_legal_resources_by_state"].

Definition apology : string :=
  "Sorry, I couldn't process your request at the moment. Please try again later.".

Section collaborators.

Variable get_gemini_response : string -> result string.
Variable json_dumps : option (gmap string pyval) -> result string.

(** Lines 36-60.  The literals of this function run over line breaks; each
    break is read as the newline character it stands for. *)
Definition _build_gemini_prompt (self : pyclass) (text : string)
    (location : option string) (context : option (gmap string pyval))
  : M string :=
  let prompt :=
    "You are a helpful AI assistant specializing in tenancy law and rental guidance. Provide comprehensive and accurate information based on the user's query."
    +:+ nl +:+ nl in
  let prompt :=
    if opt_str_truthy location then
      prompt +:+ "Consider the laws and regulations specific to "
      +:+ default EmptyString location +:+ "." +:+ nl +:+ nl
    else prompt in
  prompt ←
    (if opt_dict_truthy context then
       lookup_global module_globals "json";;
       dumped ← of_result (json_dumps context);
       mret (prompt +:+ "Here is some recent conversation history for context:"
             +:+ nl +:+ dumped +:+ nl +:+ nl)
     else mret prompt);
  let prompt := prompt +:+ "User query: " +:+ text +:+ nl +:+ nl in
  mret (prompt +:+ "Please provide a detailed response covering the relevant legal aspects, tenant rights, landlord responsibilities, and recommended next steps. Format your response clearly with headings and bullet points.").

(** Lines 62-66. *)
Definition _parse_gemini_response (self : pyclass) (response : string)
  : string * Q :=
  (response, 0.8%Q).

(** Lines 13-34. *)
Definition process_request (self : pyclass) (text : string)
    (location : option string) (context : option (gmap string pyval))
  : M (string * Q) :=
  prompt ← (lookup_method self "_build_gemini_prompt";;
            _build_gemini_prompt self text location context);
  try_except
    (lookup_global module_globals "get_gemini_response";;
     gemini_response ← call_model get_gemini_response prompt;
     lookup_method self "_parse_gemini_response";;
     let '(response_text, confidence) :=
       _parse_gemini_response self gemini_response in
     mret (response_text, confidence))
    (fun e =>
       print ("Error calling Gemini API: " +:+ exn_str e);;
       mret (apology, 0.0%Q)).

#[local] Ltac run :=
  cbv [mbind M_bind bind mret M_ret ret raise try_except print call_model
       of_result].

(** Without a context the prompt is built. *)
Lemma build_prompt_without_context (self : pyclass) (text : string)
    (location : option string) (context : option (gmap string pyval))
    (w : world) :
  opt_dict_truthy context = false ->
  exists prompt : string,
    _build_gemini_prompt self text location context w = (Return prompt, w).
Proof.
  intros Hc. unfold _build_gemini_prompt. rewrite Hc. run.
  eexists. reflexivity.
Qed.

(** With a context the builder stops at the name [json]. *)
Lemma build_prompt_with_context (self : pyclass) (text : string)
    (location : option string) (context : option (gmap string pyval))
    (w : world) :
  opt_dict_truthy context = true ->
  _build_gemini_prompt self text location context w
  = (Raise (NameError "name 'json' is not defined"), w).
Proof.
  intros Hc. unfold _build_gemini_prompt. rewrite Hc. run.
  unfold lookup_global. rewrite decide_False by compute_done. reflexivity.
Qed.

(** The two outcomes the docstring promises, reached when no context is
    passed: the raw model output with confidence 0.8, or the printed error
    and the apology with confidence 0.0. *)
Lemma process_request_without_context (text : string)
    (location : option string) (context : option (gmap string pyval))
    (w : world) :
  opt_dict_truthy context = false ->
  exists prompt : string,
    process_request TenancyFAQAgent text location context w
    = match get_gemini_response prompt with
      | Return answer =>
          (Return (answer, 0.8%Q),
           World (stdout w) (model_calls w ++ [prompt]))
      | Raise e =>
          (Return (apology, 0.0%Q),
           World (stdout w ++ ["Error calling Gemini API: " +:+ exn_str e])
                 (model_calls w ++ [prompt]))
      end.
Proof.
  intros Hc.
  destruct (build_prompt_without_context TenancyFAQAgent text location context w Hc)
    as [prompt Hp].
  exists prompt. unfold process_request. run.
  unfold lookup_method at 1. rewrite decide_True by compute_done. run.
  rewrite Hp. unfold lookup_global. rewrite decide_True by compute_done. run.
  destruct (get_gemini_response prompt) as [answer|e]; [|reflexivity].
  unfold lookup_method. rewrite decide_True by compute_done. reflexivity.
Qed.

(** With any non-empty context the call raises, whatever the model does:
    the prompt is built outside the [try]. *)
Lemma process_request_with_context (text : string)
    (location : option string) (context : option (gmap string pyval))
    (w : world) :
  opt_dict_truthy context = true ->
  process_request TenancyFAQAgent text location context w
  = (Raise (NameError "name 'json' is not defined"), w).
Proof.
  intros Hc. unfold process_request. run.
  unfold lookup_method at 1. rewrite decide_True by compute_done. run.
  rewrite (build_prompt_with_context _ _ _ _ _ Hc). reflexivity.
Qed.

(** C7, as the file stands.  For the question below, asked with a context of
    one entry, [process_request] raises [NameError] to its caller, whatever
    the model would answer: no apology is returned and nothing is printed. *)
Theorem process_request_raises_on_context (w : world) :
  process_request TenancyFAQAgent "Can my landlord evict me without notice?"
    None (Some {[ "last_agent" := PyStr "agent2" ]}) w
  = (Raise (NameError "name 'json' is not defined"), w).
Proof. apply process_request_with_context. vm_compute. reflexivity. Qed.

#[local] Ltac part :=
  first [ apply agent_router.substring_of_head
        | apply agent_router.substring_of_refl
        | solve [apply agent_router.substring_of_append_r; part]
        | solve [apply agent_router.substring_of_append_l; part] ].

(** Without a context the tenancy prompt is always built and holds the
    user's text verbatim after "User query: "; a location that is a
    non-empty string is named in it, and an empty location string is
    treated exactly like no location. *)
Theorem tenancy_prompt_holds_query_and_location (self : pyclass)
    (text : string) (location : option string)
    (context : option (gmap string pyval)) (w : world) :
  opt_dict_truthy context = false ->
  exists prompt : string,
    _build_gemini_prompt self text location context w = (Return prompt, w)
    /\ substring_of ("User query: " +:+ text) prompt
    /\ (forall place, location = Some place -> place <> EmptyString ->
        substring_of ("specific to " +:+ place +:+ ".") prompt)
    /\ _build_gemini_prompt self text (Some EmptyString) context w
       = _build_gemini_prompt self text None context w.
Proof.
  intros Hc. unfold _build_gemini_prompt. rewrite Hc. run.
  eexists. split; [reflexivity|]. split; [|split].
  - destruct (opt_str_truthy location); part.
  - intros place -> Hne. destruct place as [|c place]; [contradiction|].
    cbn [opt_str_truthy str_truthy is_empty negb default].
    unfold id.
    apply agent_router.substring_of_append_r, agent_router.substring_of_append_r,
      agent_router.substring_of_append_l.
    exists "Consider the laws and regulations ", (nl +:+ nl).
    rewrite !agent_router.append_assoc. reflexivity.
  - reflexivity.
Qed.

End collaborators.

(** *** Concrete runs *)

Definition model_answers (answer : string) : string -> result string :=
  fun _ => Return answer.

Definition dumps_braces : option (gmap string pyval) -> result string :=
  fun _ => Return "{}".

Lemma process_request_without_context_run :
  opt_dict_truthy (Some (∅ : gmap string pyval)) = false
  /\ exists prompt : string,
       process_request (model_answers "A landlord must give written notice.")
         dumps_braces TenancyFAQAgent "Can my landlord evict me?"
         (Some "Austin, TX") (Some ∅) fresh
       = (Return ("A landlord must give written notice.", 0.8%Q),
          World [] [prompt]).
Proof.
  assert (H0 : opt_dict_truthy (Some (∅ : gmap string pyval)) = false)
    by (vm_compute; reflexivity).
  split; [exact H0|].
  destruct (process_request_without_context
              (model_answers "A landlord must give written notice.")
              dumps_braces "Can my landlord evict me?" (Some "Austin, TX")
              (Some ∅) fresh H0) as [prompt H].
  exists prompt. exact H.
Defined.

Lemma tenancy_prompt_run :
  exists prompt : string,
    _build_gemini_prompt dumps_braces TenancyFAQAgent "Can my landlord evict me?"
      (Some "Austin, TX") None fresh = (Return prompt, fresh)
    /\ substring_of "User query: Can my landlord evict me?" prompt
    /\ substring_of "specific to Austin, TX." prompt.
Proof.
  destruct (tenancy_prompt_holds_query_and_location dumps_braces TenancyFAQAgent
              "Can my landlord evict me?" (Some "Austin, TX") None fresh
              ltac:(reflexivity))
    as (prompt & Hrun & Hq & Hl & _).
  exists prompt. split; [exact Hrun|]. split; [exact Hq|].
  apply (Hl "Austin, TX"); [reflexivity | discriminate].
Defined.

End tenancy_faq_agent.

(** ** issue_detection_agent.py *)

Module issue_detection_agent.
Import Py.

(** Lines 105-142. *)
Definition questions_db : gmap string (list string) :=
  list_to_map
    [("water_damage",
      ["Is the water damage still actively spreading?";
       "Can you locate the source of the water?";
       "Is there a musty odor in the area?";
       "How long has this damage been present?"]);
     ("structural_damage",
      ["Are the cracks getting larger over time?";
       "Do doors or windows stick in this area?";
       "Is the crack wider than a coin?";
       "Are there multiple cracks in the same area?"]);
     ("mold_growth",
      ["What color is the growth you're seeing?";
       "Is there a musty smell in the room?";
       "Is the area frequently damp or humid?";
       "How large is the affected area?"]);
     ("electrical_issues",
      ["Are circuit breakers tripping frequently?";
       "Do you smell burning or see sparks?";
       "Are outlets warm to the touch?";
       "Do lights flicker when appliances turn on?"]);
     ("plumbing_issues",
      ["Is water pressure affected throughout the house?";
       "Can you hear water running when all taps are off?";
       "Is the issue getting worse over time?";
       "Are multiple fixtures affected?"]);
     ("cosmetic_damage",
      ["Is the damage affecting the underlying material?";
       "How large is the affected area?";
       "Is the damage spreading or stable?";
       "Do you know what caused the damage?"])].

(** The default of line 144. *)
Definition generic_questions : list string :=
  ["Can you describe the issue in more detail?";
   "When did you first notice this problem?";
   "Has the issue changed or worsened recently?"].

(** The argument of [extend], lines 151-155. *)
Definition severe_questions : list string :=
  ["Do you need emergency professional assistance?";
   "Is the issue affecting other areas of the property?";
   "Are there any safety concerns for occupants?"].

(** Lines 100-157.  [questions_db] is built afresh by each call, so the list
    that [extend] grows in place is shared with no other call. *)
Definition get_follow_up_questions (self : pyclass) (issue_type : string)
    (severity : string) : list string :=
  let base_questions := default generic_questions (questions_db !! issue_type) in
  let base_questions :=
    if String.eqb severity "severe" then base_questions ++ severe_questions
    else base_questions in
  slice_to 5 base_questions.

(** Every entry of [questions_db] holds four questions. *)
Lemma questions_db_four (issue_type : string) (l : list string) :
  questions_db !! issue_type = Some l -> length l = 4.
Proof.
  assert (H : map_Forall (fun _ l => length l = 4) questions_db) by compute_done.
  apply H.
Qed.

Lemma base_questions_length (issue_type : string) :
  let base := default generic_questions (questions_db !! issue_type) in
  length base = 4 \/ length base = 3.
Proof.
  cbv zeta. destruct (questions_db !! issue_type) as [l|] eqn:E; simpl.
  - left. eapply questions_db_four, E.
  - right. reflexivity.
Qed.

(** C8.  [get_follow_up_questions] starts from the entry of [questions_db]
    for a known issue type and from the three generic questions otherwise;
    unless the severity is 'severe' that list is returned whole; for
    'severe' the three escalation questions are appended and the result is
    then cut to five, so it is the whole base list followed by the first
    escalation questions.  For 'water_damage' and 'severe' this gives the
    four water questions and the first escalation question. *)
Theorem follow_up_questions_base_then_severe (self : pyclass)
    (issue_type severity : string) :
  let base := default generic_questions (questions_db !! issue_type) in
  let answer := get_follow_up_questions self issue_type severity in
  (questions_db !! issue_type = None -> base = generic_questions)
  /\ (forall l, questions_db !! issue_type = Some l -> base = l)
  /\ length generic_questions = 3
  /\ length severe_questions = 3
  /\ (severity <> "severe" -> answer = base)
  /\ (severity = "severe" ->
      answer = firstn 5 (base ++ severe_questions)
      /\ length answer = 5
      /\ answer = base ++ firstn (5 - length base) severe_questions
      /\ 0 < 5 - length base)
  /\ get_follow_up_questions self "water_damage" "severe"
     = ["Is the water damage still actively spreading?";
        "Can you locate the source of the water?";
        "Is there a musty odor in the area?";
        "How long has this damage been present?";
        "Do you need emergency professional assistance?"].
Proof.
  cbv zeta. unfold get_follow_up_questions, slice_to.
  pose proof (base_questions_length issue_type) as Hlen. cbv zeta in Hlen.
  set (base := default generic_questions (questions_db !! issue_type)) in *.
  split; [intros E; subst base; rewrite E; reflexivity|].
  split; [intros l E; subst base; rewrite E; reflexivity|].
  split; [reflexivity|]. split; [reflexivity|].
  split; [|split].
  - intros Hs. apply String.eqb_neq in Hs. rewrite Hs.
    apply firstn_all2. lia.
  - intros ->. rewrite String.eqb_refl.
    assert (E : firstn 5 (base ++ severe_questions)
                = base ++ firstn (5 - length base) severe_questions).
    { rewrite firstn_app. f_equal. apply firstn_all2. lia. }
    split; [reflexivity|]. split; [|split; [exact E | lia]].
    rewrite E, length_app, length_firstn.
    change (length severe_questions) with 3. lia.
  - vm_compute. reflexivity.
Qed.

(** *** The repair timelines *)

(** Lines 164-195. *)
Definition timelines : gmap string (gmap string string) :=
  list_to_map
    [("water_damage",
      list_to_map [("minor", "1-2 days"); ("moderate", "3-7 days");
                   ("severe", "1-3 weeks")]);
     ("structural_damage",
      list_to_map [("minor", "1 day"); ("moderate", "1-2 weeks");
                   ("severe", "2-8 weeks")]);
     ("mold_growth",
      list_to_map [("minor", "1-3 days"); ("moderate", "1-2 weeks");
                   ("severe", "2-4 weeks")]);
     ("electrical_issues",
      list_to_map [("minor", "2-4 hours"); ("moderate", "1-2 days");
                   ("severe", "3-7 days")]);
     ("plumbing_issues",
      list_to_map [("minor", "1-4 hours"); ("moderate", "1-2 days");
                   ("severe", "2-5 days")]);
     ("cosmetic_damage",
      list_to_map [("minor", "2-6 hours"); ("moderate", "1-3 days");
                   ("severe", "1-2 weeks")])].

Definition timeline_varies : string := "Timeline varies - consult professional".

(** Lines 159-197: [timelines.get(issue_type, {}).get(severity, ...)]. *)
Definition estimate_repair_timeline (self : pyclass) (issue_type : string)
    (severity : string) : string :=
  default timeline_varies
    (default (∅ : gmap string string) (timelines !! issue_type) !! severity).

Definition known_issue_types : list string :=
  ["water_damage"; "structural_damage"; "mold_growth"; "electrical_issues";
   "plumbing_issues"; "cosmetic_damage"].

Definition known_severities : list string := ["minor"; "moderate"; "severe"].

Lemma timelines_entries :
  map_Forall
    (fun issue_type (by_severity : gmap string string) =>
       issue_type ∈ known_issue_types
       /\ dom by_severity = list_to_set known_severities)
    timelines.
Proof. compute_done. Qed.

(** [estimate_repair_timeline] answers with the fixed "varies" text exactly
    when the issue type is not one of the six known types or the severity is
    not one of minor, moderate, severe (both compared as written, case
    included); every known pair has a timeline of its own.  The six types
    are the ones [get_follow_up_questions] has questions for. *)
Theorem timeline_varies_exactly_off_the_table (self : pyclass)
    (issue_type severity : string) :
  (estimate_repair_timeline self issue_type severity = timeline_varies
   <-> ~ (issue_type ∈ known_issue_types /\ severity ∈ known_severities))
  /\ dom timelines = dom questions_db.
Proof.
  split; [|compute_done]. unfold estimate_repair_timeline. split.
  - intros Hv [Ht Hs]. revert Hv. unfold known_issue_types, known_severities in *.
    repeat (apply elem_of_cons in Ht as [->|Ht]);
      try (apply not_elem_of_nil in Ht; destruct Ht);
      repeat (apply elem_of_cons in Hs as [->|Hs]);
      try (apply not_elem_of_nil in Hs; destruct Hs);
      vm_compute; discriminate.
  - intros Hn. destruct (timelines !! issue_type) as [by_severity|] eqn:Et;
      [|reflexivity].
    destruct (timelines_entries _ _ Et) as [Ht Hdom].
    change (default timeline_varies (by_severity !! severity) = timeline_varies).
    destruct (by_severity !! severity) as [v|] eqn:Es; [|reflexivity].
    exfalso. apply Hn. split; [exact Ht|].
    assert (Hin : severity ∈ dom by_severity) by (apply elem_of_dom; eauto).
    rewrite Hdom in Hin. apply elem_of_list_to_set in Hin. exact Hin.
Qed.

(** *** The issue analysis request *)

(** The names the top level of the file binds, lines 3-10. *)
Definition module_globals : list string :=
  ["base64"; "json"; "random"; "Dict"; "List"; "Tuple"; "Optional"; "re";
   "get_gemini_response"; "get_gemini_response_with_image";
   "IssueDetectionAgent"].

(** The class of line 10; all six [def]s are indented under it. *)
Definition IssueDetectionAgent : pyclass :=
  PyClass "IssueDetectionAgent"
    ["process_request"; "_build_gemini_prompt_from_text";
     "_build_gemini_prompt_with_image"; "_parse_gemini_response";
     "get_follow_up_questions"; "estimate_repair_timeline"].

Definition apology : string :=
  "Sorry, I couldn't process your request at the moment. Please try again later.".

(** A call of the image-capable model: the prompt is recorded, the outcome
    is the collaborator's. *)
Definition call_vision_model (model : string -> string -> result string)
    (prompt : string) (image : string) : M string :=
  fun w => (model prompt image, World (stdout w) (model_calls w ++ [prompt])).

(** The outcome of a library call that touches neither output nor model. *)
Definition outcome {A} (r : result A) : M A := fun w => (r, w).

Section collaborators.

(** The two model calls of [utils], and [json.dumps], which may raise on a
    value it cannot serialise. *)
Variable get_gemini_response : string -> result string.
Variable get_gemini_response_with_image : string -> string -> result string.
Variable json_dumps : option (gmap string pyval) -> result string.

(** Lines 43-61.  Here as in the other prompt builders the literals run
    over line breaks, read as the newlines they stand for. *)
Definition _build_gemini_prompt_from_text (self : pyclass) (text : string)
    (context : option (gmap string pyval)) : M string :=
  let prompt :=
    "You are an AI assistant specialized in identifying potential property issues based on text descriptions. Analyze the following description and provide a brief assessment of the likely issue, its possible severity, and initial recommendations."
    +:+ nl +:+ nl +:+ "User description: " +:+ text +:+ nl +:+ nl in
  prompt ←
    (if opt_dict_truthy context then
       lookup_global module_globals "json";;
       dumped ← outcome (json_dumps context);
       mret (prompt +:+ "Here is some recent conversation history for context:"
             +:+ nl +:+ dumped +:+ nl +:+ nl)
     else mret prompt);
  mret (prompt +:+ "Please provide a concise response. Indicate the confidence level of your assessment.").

(** Lines 63-81. *)
Definition _build_gemini_prompt_with_image (self : pyclass) (text : string)
    (context : option (gmap string pyval)) : M string :=
  let prompt :=
    "You are an AI assistant specialized in identifying and analyzing property issues from images. Examine the provided image and the user's description to identify any potential issues. Describe the issue(s) you observe, assess their severity, and suggest initial recommendations for addressing them."
    +:+ nl +:+ nl +:+ "User description: " +:+ text +:+ nl +:+ nl in
  prompt ←
    (if opt_dict_truthy context then
       lookup_global module_globals "json";;
       dumped ← outcome (json_dumps context);
       mret (prompt +:+ "Here is some recent conversation history for context:"
             +:+ nl +:+ dumped +:+ nl +:+ nl)
     else mret prompt);
  mret (prompt +:+ "Please provide a detailed analysis based on the image and description. Indicate the confidence level of your assessment.").

(** Lines 83-95. *)
Definition _parse_gemini_response (self : pyclass) (response : string)
  : string * Q :=
  (response, 0.7%Q).

(** Lines 15-41; [image_data] is the optional byte string. *)
Definition process_request (self : pyclass) (text : string)
    (image_data : option string) (context : option (gmap string pyval))
  : M (string * Q) :=
  try_except
    (gemini_response ←
       (if opt_str_truthy image_data then
          prompt ← (lookup_method self "_build_gemini_prompt_with_image";;
                    _build_gemini_prompt_with_image self text context);
          lookup_global module_globals "get_gemini_response_with_image";;
          call_vision_model get_gemini_response_with_image prompt
            (default EmptyString image_data)
        else
          prompt ← (lookup_method self "_build_gemini_prompt_from_text";;
                    _build_gemini_prompt_from_text self text context);
          lookup_global module_globals "get_gemini_response";;
          call_model get_gemini_response prompt);
     lookup_method self "_parse_gemini_response";;
     let '(response_text, confidence) :=
       _parse_gemini_response self gemini_response in
     mret (response_text, confidence))
    (fun e =>
       print ("Error calling Gemini API: " +:+ exn_str e);;
       mret (apology, 0.0%Q)).

#[local] Ltac run :=
  cbv [mbind M_bind bind mret M_ret ret raise try_except print call_model
       call_vision_model outcome lookup_method lookup_global].

#[local] Ltac split_cases :=
  repeat match goal with
    | |- context [decide ?P] => destruct (decide P)
    | |- context [match json_dumps ?c with _ => _ end] => destruct (json_dumps c)
    | |- context [match get_gemini_response ?p with _ => _ end] =>
        destruct (get_gemini_response p)
    | |- context [match get_gemini_response_with_image ?p ?i with _ => _ end] =>
        destruct (get_gemini_response_with_image p i)
    | |- context [if opt_dict_truthy ?c then _ else _] =>
        destruct (opt_dict_truthy c)
    | |- context [if opt_str_truthy ?c then _ else _] =>
        destruct (opt_str_truthy c)
    end.

#[local] Ltac leaf :=
  eexists _, _; split; [reflexivity|]; cbn [stdout model_calls snd]; split;
  [ first [ exists []; rewrite app_nil_r; split; [reflexivity | simpl; lia]
          | eexists [_]; split; [reflexivity | simpl; lia] ]
  | first [ left; split; reflexivity
          | right; split; [reflexivity | eexists; reflexivity] ] ].

(** [process_request] of the issue agent never raises, whatever the
    receiver, the text, the image, the context and the behaviour of both
    models and of [json.dumps]: everything, prompt building included, runs
    inside the [try].  It returns either an answer with confidence 0.7 and
    prints nothing, or the apology with confidence 0.0 after printing one
    error line; it sends at most one prompt. *)
Theorem issue_request_always_answers (self : pyclass) (text : string)
    (image_data : option string) (context : option (gmap string pyval))
    (w : world) :
  exists (reply : string * Q) (w' : world),
    process_request self text image_data context w = (Return reply, w')
    /\ (exists prompts : list string,
          model_calls w' = model_calls w ++ prompts /\ length prompts <= 1)
    /\ ((snd reply = 0.7%Q /\ stdout w' = stdout w)
        \/ (reply = (apology, 0.0%Q)
            /\ exists e : exn,
                 stdout w' = stdout w ++ ["Error calling Gemini API: " +:+ exn_str e])).
Proof.
  unfold process_request, _build_gemini_prompt_with_image,
    _build_gemini_prompt_from_text, _parse_gemini_response.
  run. split_cases; leaf.
Qed.

#[local] Ltac part :=
  first [ apply agent_router.substring_of_head
        | apply agent_router.substring_of_refl
        | solve [apply agent_router.substring_of_append_r; part]
        | solve [apply agent_router.substring_of_append_l; part] ].

(** On the class as written: when serialising a non-empty context fails,
    the apology is returned and no model is called; otherwise exactly one
    prompt is sent, to the image model when the image payload is a non-empty
    byte string and to the text model otherwise (an empty payload counts as
    no image), the prompt holds the user's text after "User description: ",
    and the model's answer is returned with confidence 0.7, or on failure
    the apology with 0.0 after the error line is printed. *)
Theorem issue_request_outcomes (text : string) (image_data : option string)
    (context : option (gmap string pyval)) (w : world) :
  match (if opt_dict_truthy context then json_dumps context
         else Return EmptyString) with
  | Raise e =>
      process_request IssueDetectionAgent text image_data context w
      = (Return (apology, 0.0%Q),
         World (stdout w ++ ["Error calling Gemini API: " +:+ exn_str e])
               (model_calls w))
  | Return _ =>
      exists prompt : string,
        substring_of ("User description: " +:+ text) prompt
        /\ process_request IssueDetectionAgent text image_data context w
           = match (if opt_str_truthy image_data
                    then get_gemini_response_with_image prompt
                           (default EmptyString image_data)
                    else get_gemini_response prompt) with
             | Return answer =>
                 (Return (answer, 0.7%Q),
                  World (stdout w) (model_calls w ++ [prompt]))
             | Raise e =>
                 (Return (apology, 0.0%Q),
                  World (stdout w ++ ["Error calling Gemini API: " +:+ exn_str e])
                        (model_calls w ++ [prompt]))
             end
  end.
Proof.
  unfold process_request, _build_gemini_prompt_with_image,
    _build_gemini_prompt_from_text, _parse_gemini_response.
  cbv [mbind M_bind bind mret M_ret ret raise try_except print call_model
       call_vision_model outcome].
  destruct (opt_dict_truthy context), (opt_str_truthy image_data);
    cbv beta iota;
    repeat (first [ rewrite agent_router.lookup_method_bound by compute_done
                  | rewrite agent_router.lookup_global_bound by compute_done ];
            cbv beta iota);
    try (destruct (json_dumps context) as [dumped|e]; [|reflexivity]);
    repeat (first [ rewrite agent_router.lookup_method_bound by compute_done
                  | rewrite agent_router.lookup_global_bound by compute_done ];
            cbv beta iota);
    match goal with
    | |- context [get_gemini_response_with_image ?p ?i] =>
        exists p; split;
        [part | destruct (get_gemini_response_with_image p i); reflexivity]
    | |- context [get_gemini_response ?p] =>
        exists p; split; [part | destruct (get_gemini_response p); reflexivity]
    end.
Qed.

End collaborators.

End issue_detection_agent.

(** ** streamlit_main_app.py *)

Module streamlit_main_app.
Import Py.

(** The dataclass of lines 26-35.  [image_data] holds the uploaded bytes,
    [timestamp] the reading of [datetime.now()]. *)
Record Message : Type := MkMessage {
  msg_id : string;
  msg_type : string;
  content : string;
  agent : option string;
  image_data : option string;
  image_name : option string;
  confidence : option Q;
  timestamp : option N
}.

(** What the uploader widget hands over: [getvalue()] and [name]. *)
Record UploadedFile : Type := MkUploadedFile {
  getvalue : string;
  name : string
}.

(** [st.session_state], with the four entries [setup_session_state]
    creates. *)
Record session : Type := MkSession {
  messages : list Message;
  current_agent : string;
  conversation_context : gmap string pyval;
  user_location : option string
}.

(** A turn of the page can end with a Python exception of the agents, with
    [IndexError], or with the exception by which [st.rerun()] hands control
    back to Streamlit. *)
Inductive stop : Type :=
| PyExn (e : exn)
| IndexError (msg : string)
| RerunException.

Inductive outcome (A : Type) : Type :=
| Done (a : A)
| Stopped (e : stop).
Arguments Done {A} a.
Arguments Stopped {A} e.

(** A computation of the page: it reads and writes the session and the
    world; what was written before a stop stays written. *)
Definition App (A : Type) : Type :=
  session -> world -> outcome A * session * world.

Definition app_ret {A} (a : A) : App A := fun s w => (Done a, s, w).

Definition app_bind {A B} (m : App A) (k : A -> App B) : App B :=
  fun s w =>
    match m s w with
    | (Done a, s', w') => k a s' w'
    | (Stopped e, s', w') => (Stopped e, s', w')
    end.

#[global] Instance App_ret : MRet App := @app_ret.
#[global] Instance App_bind : MBind App := fun A B k m => app_bind m k.

Definition app_stop {A} (e : stop) : App A := fun s w => (Stopped e, s, w).

(** A call into the agents. *)
Definition call {A} (m : M A) : App A :=
  fun s w =>
    match m w with
    | (Return a, w') => (Done a, s, w')
    | (Raise e, w') => (Stopped (PyExn e), s, w')
    end.

Definition read {A} (field : session -> A) : App A :=
  fun s w => (Done (field s), s, w).

Definition write (update : session -> session) : App unit :=
  fun s w => (Done tt, update s, w).

(** [st.rerun()] *)
Definition st_rerun : App unit := app_stop RerunException.

Section collaborators.

(** The model calls of [utils], [json.dumps], which raises on a value it
    cannot serialise, and the draw of [random]. *)
Variable get_gemini_response : string -> result string.
Variable get_gemini_response_with_image : string -> string -> result string.
Variable json_dumps : option (gmap string pyval) -> result string.
Variable draw : nat.

(** Lines 158-219.  [time_user], [now_user], [time_bot] and [now_bot] are
    the readings of [int(time.time())] and [datetime.now()] at the two
    messages.  An uploaded file object is truthy. *)
Definition process_user_input (user_input : string)
    (uploaded_image : option UploadedFile)
    (time_user now_user time_bot now_bot : N) : App Message :=
  let image_data := getvalue <$> uploaded_image in
  let image_name := name <$> uploaded_image in
  let user_message :=
    MkMessage ("user_" +:+ pretty time_user) "user" user_input None
      image_data image_name None (Some now_user) in
  write (fun s => MkSession (messages s ++ [user_message]) (current_agent s)
                    (conversation_context s) (user_location s));;
  context ← read conversation_context;
  target_agent ←
    call (agent_router.route_request get_gemini_response json_dumps
            agent_router.AgentRouter user_input
            (bool_decide (uploaded_image <> None)) (Some context));
  write (fun s => MkSession (messages s) target_agent
                    (conversation_context s) (user_location s));;
  reply ←
    (if String.eqb target_agent "agent1" then
       context ← read conversation_context;
       call (issue_detection_agent.process_request get_gemini_response
               get_gemini_response_with_image json_dumps
               issue_detection_agent.IssueDetectionAgent
               user_input image_data (Some context))
     else if String.eqb target_agent "agent2" then
       location ← read user_location;
       context ← read conversation_context;
       call (tenancy_faq_agent.process_request get_gemini_response json_dumps
               tenancy_faq_agent.TenancyFAQAgent user_input location
               (Some context))
     else
       context ← read conversation_context;
       call (lookup_method agent_router.AgentRouter
               "generate_clarification_response";;
             agent_router.generate_clarification_response
               agent_router.AgentRouter user_input (Some context) draw));
  let '(response_content, confidence) := reply in
  mret (MkMessage ("bot_" +:+ pretty time_bot) "bot" response_content
          (Some target_agent) None None (Some confidence) (Some now_bot)).

(** Lines 117-122. *)
Definition clear_conversation : App unit :=
  log ← read messages;
  first ← match log with
          | [] => app_stop (IndexError "list index out of range")
          | welcome :: _ => mret welcome
          end;
  write (fun s => MkSession [first] (current_agent s)
                    (conversation_context s) (user_location s));;
  write (fun s => MkSession (messages s) "router"
                    (conversation_context s) (user_location s));;
  write (fun s => MkSession (messages s) (current_agent s) ∅ (user_location s));;
  st_rerun.

#[local] Ltac app_run :=
  cbv [mbind App_bind app_bind mret App_ret app_ret write read call app_stop
       st_rerun].

(** The user's message as [process_user_input] records it. *)
Definition user_message_of (user_input : string)
    (uploaded_image : option UploadedFile) (time_user now_user : N) : Message :=
  MkMessage ("user_" +:+ pretty time_user) "user" user_input None
    (getvalue <$> uploaded_image) (name <$> uploaded_image) None (Some now_user).

Lemma issue_reply (user_input : string) (image : option string)
    (context : option (gmap string pyval)) (w : world) :
  exists (reply : string * Q) (w' : world),
    issue_detection_agent.process_request get_gemini_response
      get_gemini_response_with_image json_dumps
      issue_detection_agent.IssueDetectionAgent user_input image context w
    = (Return reply, w')
    /\ (exists prompts : list string,
          model_calls w' = model_calls w ++ prompts /\ length prompts <= 1)
    /\ ((snd reply = 0.7%Q /\ stdout w' = stdout w)
        \/ (reply = (issue_detection_agent.apology, 0.0%Q)
            /\ exists e : exn,
                 stdout w' = stdout w ++ ["Error calling Gemini API: " +:+ exn_str e])).
Proof.
  unfold issue_detection_agent.process_request,
    issue_detection_agent._build_gemini_prompt_with_image,
    issue_detection_agent._build_gemini_prompt_from_text,
    issue_detection_agent._parse_gemini_response.
  cbv [mbind M_bind bind mret M_ret ret raise try_except print call_model
       issue_detection_agent.call_vision_model issue_detection_agent.outcome].
  destruct (opt_dict_truthy context), (opt_str_truthy image);
    cbv beta iota;
    repeat (first [ rewrite agent_router.lookup_method_bound by compute_done
                  | rewrite agent_router.lookup_global_bound by compute_done ];
            cbv beta iota);
    try destruct (json_dumps context);
    repeat (first [ rewrite agent_router.lookup_method_bound by compute_done
                  | rewrite agent_router.lookup_global_bound by compute_done ];
            cbv beta iota);
    try match goal with
    | |- context [get_gemini_response_with_image ?p ?i] =>
        destruct (get_gemini_response_with_image p i)
    | |- context [get_gemini_response ?p] =>
        destruct (get_gemini_response p)
    end;
    (eexists _, _; split; [reflexivity|]; cbn [stdout model_calls snd]; split;
     [ first [ exists []; rewrite app_nil_r; split; [reflexivity | simpl; lia]
             | eexists [_]; split; [reflexivity | simpl; lia] ]
     | first [ left; split; reflexivity
             | right; split; [reflexivity | eexists; reflexivity] ] ]).
Qed.

(** A turn with an uploaded file never fails: the user's message is
    appended to the log, the turn is routed to 'agent1' without consulting
    the model for routing, and the reply is a bot message of 'agent1' that
    carries either an answer with confidence 0.7 or, after one printed error
    line, the apology with confidence 0.0.  At most one prompt is sent; the
    context and the location are left as they were. *)
Theorem upload_turn_is_answered_by_agent1 (user_input : string)
    (file : UploadedFile) (time_user now_user time_bot now_bot : N)
    (s : session) (w : world) :
  exists (bot : Message) (w' : world),
    process_user_input user_input (Some file) time_user now_user time_bot now_bot
      s w
    = (Done bot,
       MkSession (messages s
                  ++ [user_message_of user_input (Some file) time_user now_user])
         "agent1" (conversation_context s) (user_location s),
       w')
    /\ msg_id bot = "bot_" +:+ pretty time_bot
    /\ msg_type bot = "bot"
    /\ agent bot = Some "agent1"
    /\ (exists prompts : list string,
          model_calls w' = model_calls w ++ prompts /\ length prompts <= 1)
    /\ ((confidence bot = Some 0.7%Q /\ stdout w' = stdout w)
        \/ (content bot = issue_detection_agent.apology
            /\ confidence bot = Some 0.0%Q
            /\ exists e : exn,
                 stdout w' = stdout w ++ ["Error calling Gemini API: " +:+ exn_str e])).
Proof.
  destruct (issue_reply user_input (Some (getvalue file))
              (Some (conversation_context s)) w)
    as ([answer conf] & w' & Hrun & Hcalls & Hout).
  unfold process_user_input. app_run. cbn [fmap option_fmap option_map].
  rewrite (bool_decide_eq_true_2 (Some file <> None)) by discriminate.
  cbn [agent_router.route_request]. cbv [mret M_ret ret].
  cbn [messages current_agent conversation_context user_location].
  change (String.eqb "agent1" "agent1") with true. cbv beta iota.
  cbn [conversation_context]. rewrite Hrun. cbv beta iota.
  eexists _, w'. split; [reflexivity|].
  cbn [msg_id msg_type agent confidence content].
  split; [reflexivity|]. split; [reflexivity|]. split; [reflexivity|].
  split; [exact Hcalls|].
  destruct Hout as [[Hconf Hs]|[Heq Hs]].
  - left. simpl in Hconf. subst conf. auto.
  - right. injection Heq as -> ->. auto.
Qed.

(** A turn without an upload fails on the class as written: the user's
    message is appended to the log, then routing raises [AttributeError]
    out of [process_user_input]; no reply is produced, no model is called,
    nothing is printed and [current_agent] keeps its value. *)
Theorem text_turn_stops_at_routing (user_input : string)
    (time_user now_user time_bot now_bot : N) (s : session) (w : world) :
  process_user_input user_input None time_user now_user time_bot now_bot s w
  = (Stopped (PyExn (AttributeError
                       "'AgentRouter' object has no attribute '_build_gemini_routing_prompt'")),
     MkSession (messages s ++ [user_message_of user_input None time_user now_user])
       (current_agent s) (conversation_context s) (user_location s),
     w).
Proof.
  unfold process_user_input. app_run. cbn [fmap option_fmap option_map].
  rewrite (bool_decide_eq_false_2 (None <> None)) by (intros H; apply H; reflexivity).
  unfold agent_router.route_request.
  cbv [mbind M_bind bind mret M_ret ret raise try_except].
  rewrite agent_router.lookup_method_unbound by compute_done. reflexivity.
Qed.

Lemma clear_nonempty (s : session) (w : world) (welcome : Message)
    (rest : list Message) :
  messages s = welcome :: rest ->
  clear_conversation s w
  = (Stopped RerunException, MkSession [welcome] "router" ∅ (user_location s), w).
Proof.
  intros H. unfold clear_conversation. app_run. rewrite H. reflexivity.
Qed.

(** What a turn does to the session, however it ends. *)
Lemma turn_session (user_input : string) (uploaded_image : option UploadedFile)
    (time_user now_user time_bot now_bot : N) (s : session) (w : world)
    (o : outcome Message) (s1 : session) (w1 : world) :
  process_user_input user_input uploaded_image time_user now_user time_bot
    now_bot s w = (o, s1, w1) ->
  messages s1
  = messages s ++ [user_message_of user_input uploaded_image time_user now_user]
  /\ conversation_context s1 = conversation_context s
  /\ user_location s1 = user_location s.
Proof.
  unfold process_user_input. app_run. destruct uploaded_image as [file|];
    cbn [fmap option_fmap option_map].
  - destruct (issue_reply user_input (Some (getvalue file))
                (Some (conversation_context s)) w)
      as ([answer conf] & w' & Hrun & _).
    rewrite (bool_decide_eq_true_2 (Some file <> None)) by discriminate.
    cbn [agent_router.route_request]. cbv [mret M_ret ret].
    cbn [messages current_agent conversation_context user_location].
    change (String.eqb "agent1" "agent1") with true. cbv beta iota.
    cbn [conversation_context]. rewrite Hrun. cbv beta iota.
    intros H. injection H as <- <- <-. auto.
  - rewrite (bool_decide_eq_false_2 (None <> None))
      by (intros H; apply H; reflexivity).
    unfold agent_router.route_request.
    cbv [mbind M_bind bind mret M_ret ret raise try_except].
    rewrite agent_router.lookup_method_unbound by compute_done.
    intros H. injection H as <- <- <-. auto.
Qed.

(** [clear_conversation] on a log that holds at least one message keeps
    only the first, sets [current_agent] to 'router', empties the context,
    keeps the location and ends in the rerun; on an empty log it raises
    [IndexError] and changes nothing.  Clearing again gives the same
    session. *)
Theorem clear_keeps_only_the_first_message (s : session) (w : world) :
  (forall welcome rest, messages s = welcome :: rest ->
     clear_conversation s w
     = (Stopped RerunException,
        MkSession [welcome] "router" ∅ (user_location s), w))
  /\ (messages s = [] ->
      clear_conversation s w
      = (Stopped (IndexError "list index out of range"), s, w))
  /\ (forall o s' w', clear_conversation s w = (o, s', w') ->
      clear_conversation s' w' = (o, s', w')).
Proof.
  unfold clear_conversation. app_run. destruct s as [log cur ctx loc].
  cbn [messages current_agent conversation_context user_location].
  destruct log as [|welcome rest].
  - split; [discriminate|]. split; [reflexivity|].
    intros o s' w' H. injection H as <- <- <-. reflexivity.
  - split; [intros ? ? H; injection H as <- <-; reflexivity|].
    split; [discriminate|].
    intros o s' w' H. injection H as <- <- <-. reflexivity.
Qed.

(** Clearing after a turn, whether the turn was answered or stopped, gives
    what clearing before the turn would have given: the first message of
    the log survives every turn. *)
Theorem clear_after_a_turn (user_input : string)
    (uploaded_image : option UploadedFile)
    (time_user now_user time_bot now_bot : N) (s : session) (w : world)
    (welcome : Message) (rest : list Message) :
  messages s = welcome :: rest ->
  forall (o : outcome Message) (s1 : session) (w1 : world),
    process_user_input user_input uploaded_image time_user now_user time_bot
      now_bot s w = (o, s1, w1) ->
    clear_conversation s1 w1
    = (Stopped RerunException,
       MkSession [welcome] "router" ∅ (user_location s), w1).
Proof.
  intros Hlog o s1 w1 Hturn.
  destruct (turn_session _ _ _ _ _ _ _ _ _ _ _ Hturn) as (Hm & _ & Hl).
  rewrite Hlog in Hm. rewrite <- Hl. apply (clear_nonempty s1 w1 welcome _ Hm).
Qed.

End collaborators.

(** *** A concrete turn *)

Definition welcome_message : Message :=
  MkMessage "welcome" "bot" "Welcome" (Some "router") None None None (Some 0%N).

Definition opening_session : session :=
  MkSession [welcome_message] "router" ∅ None.

Definition model_down : string -> result string :=
  fun _ => Raise (ModelError "503 Service Unavailable").

Definition vision_down : string -> string -> result string :=
  fun _ _ => Raise (ModelError "503 Service Unavailable").

Lemma clear_after_text_turn_run :
  exists (o : outcome Message) (s1 : session) (w1 : world),
    process_user_input model_down vision_down (fun _ => Return "{}") 0
      "Is my landlord allowed to do this?" None 1730000000 1730000000
      1730000001 1730000001 opening_session fresh
    = (o, s1, w1)
    /\ length (messages s1) = 2
    /\ clear_conversation s1 w1 = (Stopped RerunException, opening_session, w1).
Proof.
  destruct (process_user_input model_down vision_down (fun _ => Return "{}") 0
              "Is my landlord allowed to do this?" None 1730000000 1730000000
              1730000001 1730000001 opening_session fresh)
    as [[o s1] w1] eqn:E.
  exists o, s1, w1. split; [reflexivity|]. split.
  - vm_compute in E. injection E as <- <- <-. reflexivity.
  - apply (clear_after_a_turn model_down vision_down (fun _ => Return "{}") 0
             "Is my landlord allowed to do this?" None 1730000000 1730000000
             1730000001 1730000001 opening_session fresh welcome_message []
             eq_refl o s1 w1 E).
Defined.

End streamlit_main_app.
